(** * aiohttp-rpc: the client side of JSON-RPC 2.0

    A shallow embedding of [aiohttp_rpc/protocol/request.py] and
    [aiohttp_rpc/client/base.py], and the properties of request
    construction, batch shorthand parsing and batch correlation.

    Python values are embedded as an inductive type, a [dict] keyed by
    request ids as a [gmap], exceptions as the [Raise] branch of a result
    type, and the effects of the client (random ids, the transport) as
    explicit state passing over a world [W]. *)

From stdpp Require Import gmap strings list fin_maps.

Set Warnings "-register-all".
Open Scope Z_scope.
Open Scope string_scope.
Open Scope list_scope.

(** ** Python values

    The values that travel in [params], [args], [kwargs], [result] and on
    the wire: what a JSON codec produces.  [list] and [tuple] are both
    [PList]: the code only takes their length and indexes them.  A [dict]
    keeps its insertion order. *)

Inductive pyval : Type :=
  | PNone
  | PBool (b : bool)
  | PInt (n : Z)
  | PStr (s : string)
  | PList (items : list pyval)
  | PDict (items : list (string * pyval)).

(** Truth value of [not x] / [x or y] on wire values. *)
Definition py_truthy (v : pyval) : bool :=
  match v with
  | PNone => false
  | PBool b => b
  | PInt n => negb (Z.eqb n 0)
  | PStr s => negb (String.eqb s "")
  | PList items => negb (Nat.eqb (length items) 0)
  | PDict items => negb (Nat.eqb (length items) 0)
  end.

(** [typedefs.JsonRpcIdType = typing.Union[int, str]] *)
Inductive JsonRpcIdType : Type :=
  | IdInt (n : Z)
  | IdStr (s : string).

#[global] Instance JsonRpcIdType_eq_dec : EqDecision JsonRpcIdType.
Proof. solve_decision. Defined.

#[global] Instance JsonRpcIdType_countable : Countable JsonRpcIdType.
Proof.
  refine (inj_countable'
            (fun i => match i with IdInt n => inl n | IdStr s => inr s end)
            (fun x => match x with inl n => IdInt n | inr s => IdStr s end) _).
  by intros [].
Defined.

Definition id_to_pyval (i : JsonRpcIdType) : pyval :=
  match i with IdInt n => PInt n | IdStr s => PStr s end.

(** ** Errors and exceptions *)

(** Modelled from the spec: the module [errors] is not among the sources.
    An error object of a response carries [code], [message] and optional
    [data]. *)
Record JsonRpcError : Type := mkJsonRpcError {
  code : Z;
  message : string;
  data : option pyval
}.

(** The exception classes the sources raise ([errors.InvalidRequest],
    [errors.InvalidParams], [errors.ParseError]) with their message, and
    the built-in exceptions a [dict] access, a method call on the wrong
    class or an [assert] can raise. *)
Inductive exception : Type :=
  | InvalidRequest (msg : string)
  | InvalidParams (msg : string)
  | ParseError (msg : string)
  | KeyError
  | AttributeError
  | AssertionError.

Inductive result (A : Type) : Type :=
  | Ok (a : A)
  | Raise (e : exception).
Arguments Ok {A} a.
Arguments Raise {A} e.

#[global] Instance result_ret : MRet result := fun _ a => Ok a.
#[global] Instance result_bind : MBind result := fun _ _ k r =>
  match r with
  | Ok a => k a
  | Raise e => Raise e
  end.

(** A [for] loop whose body may raise: the first exception leaves the loop. *)
Fixpoint for_each {A S} (body : S → A → result S) (items : list A) (s : S)
  : result S :=
  match items with
  | [] => Ok s
  | x :: rest => s' ← body s x; for_each body rest s'
  end.

(** ** Objects of the result list

    What [_collect_batch_result] stores in [responses_map] and in
    [result]: the value of a response ([response.result], a wire value, or
    [response.error]), or one of the two accumulators. *)

(** Modelled from the spec: [protocol.UnlinkedResults] and
    [protocol.DuplicatedResults] are not among the sources.  Each is an
    ordered collection of values with an [add] method that appends; an
    [UnlinkedResults] is false when it is empty (the spec's "unlinked
    (non-empty) or absent"). *)
Inductive pyobj : Type :=
  | Value (v : pyval)
  | ErrorObj (e : JsonRpcError)
  | DuplicatedResults (data : list pyobj)
  | UnlinkedResults (data : list pyobj).

(** Python's [None] as an entry of the result list. *)
Definition py_None : pyobj := Value PNone.

Definition add (self value : pyobj) : result pyobj :=
  match self with
  | DuplicatedResults data => Ok (DuplicatedResults (data ++ [value]))
  | UnlinkedResults data => Ok (UnlinkedResults (data ++ [value]))
  | Value _ | ErrorObj _ => Raise AttributeError
  end.

Definition isinstance_DuplicatedResults (o : pyobj) : bool :=
  match o with DuplicatedResults _ => true | _ => false end.

Definition obj_truthy (o : pyobj) : bool :=
  match o with
  | Value v => py_truthy v
  | ErrorObj _ => true
  | DuplicatedResults _ => true
  | UnlinkedResults data => negb (Nat.eqb (length data) 0)
  end.

(** [a or b] *)
Definition py_or (a b : pyobj) : pyobj := if obj_truthy a then a else b.

(** ** [dict] operations on [responses_map] *)

Definition dict_contains (k : JsonRpcIdType) (m : gmap JsonRpcIdType pyobj) : bool :=
  bool_decide (is_Some (m !! k)).

(** [m[k]] raises [KeyError] on a missing key. *)
Definition dict_getitem (m : gmap JsonRpcIdType pyobj) (k : JsonRpcIdType) : result pyobj :=
  match m !! k with
  | Some v => Ok v
  | None => Raise KeyError
  end.

(** [m.get(k, default)]; the key is a request's [id] field.  No key of
    [responses_map] is [None]: responses without id never enter it. *)
Definition dict_get (m : gmap JsonRpcIdType pyobj) (k : option JsonRpcIdType)
    (default : pyobj) : pyobj :=
  match k with
  | Some k => match m !! k with Some v => v | None => default end
  | None => default
  end.

(** ** [protocol/request.py] *)

(** Modelled from the spec: the module [utils] and [constants] are not
    among the sources.  The three functions [JsonRpcRequest] calls are
    parameters of the development; [constants.NOTHING], the "no params"
    sentinel, is the [None] of [option pyval]. *)
Class Utils : Type := {
  (** [utils.validate_jsonrpc(jsonrpc)] *)
  validate_jsonrpc : string → result unit;
  (** [utils.parse_args_and_kwargs(args, kwargs)] returns
      [(params, args, kwargs)] *)
  parse_args_and_kwargs : pyval → pyval → result (option pyval * pyval * pyval);
  (** [utils.convert_params_to_args_and_kwargs(params)] returns
      [(args, kwargs)] *)
  convert_params_to_args_and_kwargs : option pyval → result (pyval * pyval)
}.

Module JsonRpcRequest.

(** The dataclass [JsonRpcRequest].  [args] and [kwargs] are not
    converted by the class, so they are plain values; [PNone] is
    Python's [None]. *)
Record t : Type := mk {
  method_name : pyval;
  id : option JsonRpcIdType;
  jsonrpc : string;
  extra_args : list (string * pyval);
  context : list (string * pyval);
  params : option pyval;
  args : pyval;
  kwargs : pyval
}.

Definition is_None (v : pyval) : bool :=
  match v with PNone => true | _ => false end.

Section methods.
Context `{Utils}.

Definition set_params (self : t) (params : option pyval) : result t :=
  '(args, kwargs) ← convert_params_to_args_and_kwargs params;
  Ok (mk (method_name self) (id self) (jsonrpc self) (extra_args self)
         (context self) params args kwargs).

Definition set_args_and_kwargs (self : t) (args kwargs : pyval) : result t :=
  '(params, args, kwargs) ← parse_args_and_kwargs args kwargs;
  Ok (mk (method_name self) (id self) (jsonrpc self) (extra_args self)
         (context self) params args kwargs).

(** [self] holds the fields as the caller gave them. *)
Definition __post_init__ (self : t) : result t :=
  _ ← validate_jsonrpc (jsonrpc self);
  match params self with
  | None => set_args_and_kwargs self (args self) (kwargs self)
  | Some _ =>
      if is_None (args self) && is_None (kwargs self)
      then set_params self (params self)
      else Raise (InvalidParams "Need use params or args with kwargs.")
  end.

(** The constructor: the generated [__init__] stores the arguments and
    calls [__post_init__]. *)
Definition new (method_name : pyval) (id : option JsonRpcIdType)
    (jsonrpc : string) (extra_args context : list (string * pyval))
    (params : option pyval) (args kwargs : pyval) : result t :=
  __post_init__ (mk method_name id jsonrpc extra_args context params args kwargs).
End methods.

Definition is_notification (self : t) : bool :=
  bool_decide (id self = None).

Definition to_dict (self : t) : pyval :=
  let data := [("method", method_name self); ("jsonrpc", PStr (jsonrpc self))] in
  let data :=
    match id self with
    | Some i => data ++ [("id", id_to_pyval i)]
    | None => data
    end in
  let data :=
    match params self with
    | Some p => data ++ [("params", p)]
    | None => data
    end in
  PDict data.

End JsonRpcRequest.

(** Modelled from the spec: [constants.VERSION_2_0] is not among the
    sources; the wire format has ["jsonrpc": "2.0"]. *)
Definition VERSION_2_0 : string := "2.0".

Module JsonRpcBatchRequest.

(** The dataclass [JsonRpcBatchRequest]: it has no [__post_init__], so
    the constructor stores any sequence, the empty one (its default)
    included. *)
Record t : Type := mk {
  requests : list JsonRpcRequest.t
}.

Definition new (requests : list JsonRpcRequest.t) : result t := Ok (mk requests).

Definition is_notification (self : t) : bool :=
  forallb JsonRpcRequest.is_notification (requests self).

Definition to_list (self : t) : pyval :=
  PList (map JsonRpcRequest.to_dict (requests self)).

End JsonRpcBatchRequest.

(** ** Responses *)

Module JsonRpcResponse.

(** Modelled from the spec: [protocol.JsonRpcResponse] is not among the
    sources.  A response has an optional id, a result and an optional
    error. *)
Record t : Type := mk {
  id : option JsonRpcIdType;
  result : pyval;
  error : option JsonRpcError
}.

End JsonRpcResponse.

Module JsonRpcBatchResponse.

(** Modelled from the spec: [protocol.JsonRpcBatchResponse] is not among
    the sources.  It is the sequence of the parsed responses. *)
Record t : Type := mk {
  responses : list JsonRpcResponse.t
}.

End JsonRpcBatchResponse.

(** ** [client/base.py]: batch correlation *)

(** [response.result if response.error is None else response.error] *)
Definition response_value (response : JsonRpcResponse.t) : pyobj :=
  match JsonRpcResponse.error response with
  | None => Value (JsonRpcResponse.result response)
  | Some e => ErrorObj e
  end.

(** The body of the first loop of [_collect_batch_result], on the pair
    [(unlinked_results, responses_map)]. *)
Definition collect_response (st : pyobj * gmap JsonRpcIdType pyobj)
    (response : JsonRpcResponse.t) : result (pyobj * gmap JsonRpcIdType pyobj) :=
  let '(unlinked_results, responses_map) := st in
  let value := response_value response in
  match JsonRpcResponse.id response with
  | None =>
      unlinked_results ← add unlinked_results value;
      Ok (unlinked_results, responses_map)
  | Some rid =>
      if dict_contains rid responses_map then
        current ← dict_getitem responses_map rid;
        if isinstance_DuplicatedResults current then
          current ← add current value;
          Ok (unlinked_results, <[rid := current]> responses_map)
        else
          Ok (unlinked_results,
              <[rid := DuplicatedResults [current; value]]> responses_map)
      else
        Ok (unlinked_results, <[rid := value]> responses_map)
  end.

(** The body of the second loop: [result.append(...)]. *)
Definition collect_request (unlinked_results : pyobj)
    (responses_map : gmap JsonRpcIdType pyobj)
    (result : list pyobj) (request : JsonRpcRequest.t) : list pyobj :=
  if JsonRpcRequest.is_notification request then
    result ++ [py_or unlinked_results py_None]
  else
    result ++ [dict_get responses_map (JsonRpcRequest.id request)
                 (py_or unlinked_results py_None)].

Definition _collect_batch_result (batch_request : JsonRpcBatchRequest.t)
    (batch_response : JsonRpcBatchResponse.t) : result (list pyobj) :=
  '(unlinked_results, responses_map) ←
    for_each collect_response (JsonRpcBatchResponse.responses batch_response)
      (UnlinkedResults [], ∅);
  Ok (fold_left (collect_request unlinked_results responses_map)
        (JsonRpcBatchRequest.requests batch_request) []).

(** ** [client/base.py]: the client over a world

    The client draws random ids and talks to a transport.  Both are
    threaded through a world [W]; a computation returns a value or raises,
    and the world it leaves behind. *)

Definition M (W A : Type) : Type := W → result A * W.

#[global] Instance M_ret {W} : MRet (M W) := fun _ a w => (Ok a, w).
#[global] Instance M_bind {W} : MBind (M W) := fun _ _ k m w =>
  match m w with
  | (Ok a, w') => k a w'
  | (Raise e, w') => (Raise e, w')
  end.

Definition raise {W A} (e : exception) : M W A := fun w => (Raise e, w).
Definition lift {W A} (r : result A) : M W A := fun w => (r, w).

(** A list comprehension whose element expression has effects. *)
Fixpoint comprehension {W A B} (f : A → M W B) (items : list A) : M W (list B) :=
  match items with
  | [] => mret []
  | x :: rest => y ← f x; ys ← comprehension f rest; mret (y :: ys)
  end.

(** What the client needs from outside the sources. *)
Class Client (W : Type) : Type := {
  (** Modelled from the spec: [utils.get_random_id()] is not among the
      sources; it produces an identifier from a source of randomness. *)
  get_random_id : W → JsonRpcIdType * W;
  (** The abstract method [send_json(data, without_response=...)]: the
      transport.  It returns the decoded payload and a context. *)
  send_json : pyval → bool → M W (pyval * option (list (string * pyval)));
  (** Modelled from the spec: [protocol.JsonRpcBatchResponse.from_list] is
      not among the sources; it parses a decoded payload or raises. *)
  from_list : pyval → result JsonRpcBatchResponse.t
}.

(** [typedefs.MethodDescriptionType =
      typing.Union[str, list, tuple, 'protocol.JsonRpcRequest']] *)
Inductive MethodDescriptionType : Type :=
  | DescStr (s : string)
  | DescSeq (items : list pyval)
  | DescRequest (request : JsonRpcRequest.t).

(** [typedefs.MethodDescriptionsType]: an iterable of descriptions or a
    batch request. *)
Inductive MethodDescriptionsType : Type :=
  | Descriptions (items : list MethodDescriptionType)
  | DescBatch (batch_request : JsonRpcBatchRequest.t).

Section client.
Context {W : Type} `{Utils} `{Client W}.

(** [request_id = None if is_notification else utils.get_random_id()] *)
Definition new_request_id (is_notification : bool) : M W (option JsonRpcIdType) :=
  fun w =>
    if is_notification then (Ok None, w)
    else let '(i, w') := get_random_id w in (Ok (Some i), w').

(** The tests [len(method_description) == 1], [== 2], [== 3] with the
    indexings [method_description[0]], [[1]], [[2]] are the patterns of
    one, two and three items. *)
Definition _parse_method_description (method_description : MethodDescriptionType)
    (is_notification : bool) : M W JsonRpcRequest.t :=
  match method_description with
  | DescRequest request => mret request
  | DescStr name =>
      request_id ← new_request_id is_notification;
      lift (JsonRpcRequest.new (PStr name) request_id VERSION_2_0 [] [] None PNone PNone)
  | DescSeq items =>
      request_id ← new_request_id is_notification;
      match items with
      | [name] =>
          lift (JsonRpcRequest.new name request_id VERSION_2_0 [] [] None PNone PNone)
      | [name; params] =>
          lift (JsonRpcRequest.new name request_id VERSION_2_0 [] [] (Some params) PNone PNone)
      | [name; args; kwargs] =>
          lift (JsonRpcRequest.new name request_id VERSION_2_0 [] [] None args kwargs)
      | _ => raise (InvalidParams "Use string or list (length less than or equal to 3).")
      end
  end.

Definition direct_batch (batch_request : JsonRpcBatchRequest.t)
    : M W (option JsonRpcBatchResponse.t) :=
  match JsonRpcBatchRequest.requests batch_request with
  | [] => raise (InvalidRequest "You can not send an empty batch request.")
  | _ :: _ =>
      let is_notification := JsonRpcBatchRequest.is_notification batch_request in
      '(json_response, context) ←
        send_json (JsonRpcBatchRequest.to_list batch_request) is_notification;
      if is_notification then mret None
      else if negb (py_truthy json_response) then
        raise (ParseError "Server returned an empty batch response.")
      else
        batch_response ← lift (from_list json_response);
        mret (Some batch_response)
  end.

(** The batch request [batch] and [batch_notify] send: the one given, or
    the one built from the descriptions. *)
Definition make_batch_request (method_descriptions : MethodDescriptionsType)
    (is_notification : bool) : M W JsonRpcBatchRequest.t :=
  match method_descriptions with
  | DescBatch batch_request => mret batch_request
  | Descriptions items =>
      requests ← comprehension
        (fun method_description =>
           _parse_method_description method_description is_notification) items;
      lift (JsonRpcBatchRequest.new requests)
  end.

Definition batch (method_descriptions : MethodDescriptionsType)
    (save_order : bool) : M W (list pyobj) :=
  batch_request ← make_batch_request method_descriptions false;
  batch_response ← direct_batch batch_request;
  match batch_response with
  | None => raise AssertionError
  | Some batch_response =>
      if save_order then
        lift (_collect_batch_result batch_request batch_response)
      else
        mret (map response_value (JsonRpcBatchResponse.responses batch_response))
  end.

Definition batch_notify (method_descriptions : MethodDescriptionsType) : M W unit :=
  batch_request ← make_batch_request method_descriptions true;
  _ ← direct_batch batch_request;
  mret tt.

End client.

(** ** A reference environment

    The functions of [utils] and the response parser as the specification
    describes them, and a transport that logs what is sent and replies
    from a queue.  The theorems below hold for every environment; this one
    runs them on concrete inputs. *)

Module Reference.

(** Modelled from the spec: [utils.validate_jsonrpc] is not among the
    sources; it fails with [InvalidRequest] unless the version is the
    supported one. *)
Definition validate_jsonrpc (jsonrpc : string) : result unit :=
  if String.eqb jsonrpc VERSION_2_0 then Ok tt
  else Raise (InvalidRequest "Only version 2.0 is supported.").

(** Modelled from the spec: [utils.parse_args_and_kwargs] is not among
    the sources.  Only args given: the params are the args; only kwargs
    given: the params are the kwargs; both empty: no params; both given:
    [InvalidParams]. *)
Definition parse_args_and_kwargs (args kwargs : pyval)
    : result (option pyval * pyval * pyval) :=
  match py_truthy args, py_truthy kwargs with
  | false, false => Ok (None, PList [], PDict [])
  | true, false => Ok (Some args, args, PDict [])
  | false, true => Ok (Some kwargs, PList [], kwargs)
  | true, true => Raise (InvalidParams "Need use args or kwargs.")
  end.

(** Modelled from the spec: [utils.convert_params_to_args_and_kwargs] is
    not among the sources.  A sequence is the positional arguments, a
    mapping the keyword arguments, anything else is [InvalidParams]. *)
Definition convert_params_to_args_and_kwargs (params : option pyval)
    : result (pyval * pyval) :=
  match params with
  | None => Ok (PList [], PDict [])
  | Some (PList items) => Ok (PList items, PDict [])
  | Some (PDict items) => Ok (PList [], PDict items)
  | Some _ => Raise (InvalidParams "Params have unsupported data types.")
  end.

#[export] Instance utils : Utils :=
  Build_Utils validate_jsonrpc parse_args_and_kwargs
    convert_params_to_args_and_kwargs.

Fixpoint lookup_key (key : string) (items : list (string * pyval)) : option pyval :=
  match items with
  | [] => None
  | (k, v) :: rest => if String.eqb k key then Some v else lookup_key key rest
  end.

Definition id_of_pyval (v : option pyval) : option JsonRpcIdType :=
  match v with
  | Some (PInt n) => Some (IdInt n)
  | Some (PStr s) => Some (IdStr s)
  | _ => None
  end.

Definition error_of_pyval (v : pyval) : result JsonRpcError :=
  match v with
  | PDict items =>
      match lookup_key "code" items, lookup_key "message" items with
      | Some (PInt c), Some (PStr m) =>
          Ok (mkJsonRpcError c m (lookup_key "data" items))
      | _, _ => Raise (ParseError "Invalid error object.")
      end
  | _ => Raise (ParseError "Invalid error object.")
  end.

(** Modelled from the spec: [protocol.JsonRpcResponse.from_dict] is not
    among the sources.  It reads [id] (null if absent) and one of
    [result] and [error]. *)
Definition response_from_dict (v : pyval) : result JsonRpcResponse.t :=
  match v with
  | PDict items =>
      let rid := id_of_pyval (lookup_key "id" items) in
      match lookup_key "error" items with
      | Some e => err ← error_of_pyval e; Ok (JsonRpcResponse.mk rid PNone (Some err))
      | None =>
          match lookup_key "result" items with
          | Some r => Ok (JsonRpcResponse.mk rid r None)
          | None => Ok (JsonRpcResponse.mk rid PNone None)
          end
      end
  | _ => Raise (ParseError "A response must be of the dict type.")
  end.

(** Modelled from the spec: [protocol.JsonRpcBatchResponse.from_list] is
    not among the sources.  It parses each element; a payload that is
    not a list fails with [ParseError]. *)
Definition from_list (v : pyval) : result JsonRpcBatchResponse.t :=
  match v with
  | PList items =>
      responses ← for_each (fun acc item =>
                              response ← response_from_dict item;
                              Ok (acc ++ [response])) items [];
      Ok (JsonRpcBatchResponse.mk responses)
  | _ => Raise (ParseError "A batch response must be of the list type.")
  end.

(** The world: a counter for the ids, the replies the server will give,
    and the payloads sent so far. *)
Record world : Type := mkWorld {
  next_id : Z;
  replies : list pyval;
  sent : list pyval
}.

Definition get_random_id (w : world) : JsonRpcIdType * world :=
  (IdInt (next_id w), mkWorld (next_id w + 1) (replies w) (sent w)).

Definition send_json (payload : pyval) (without_response : bool)
    : M world (pyval * option (list (string * pyval))) :=
  fun w =>
    if without_response then
      (Ok (PNone, None), mkWorld (next_id w) (replies w) (sent w ++ [payload]))
    else
      match replies w with
      | [] => (Ok (PNone, None), mkWorld (next_id w) [] (sent w ++ [payload]))
      | reply :: rest =>
          (Ok (reply, None), mkWorld (next_id w) rest (sent w ++ [payload]))
      end.

#[export] Instance client : Client world :=
  Build_Client world get_random_id send_json from_list.

End Reference.

(** * What the properties are stated with *)

(** ** What correlation has to compute

    These definitions follow the specification of the algorithm, not the
    code: the values of the responses that carry a given id, and of those
    that carry none, in the order of the response list; and the entry
    each request resolves to.  The theorems compare the two loops of
    [_collect_batch_result] with them. *)

Definition values_for (k : JsonRpcIdType) (responses : list JsonRpcResponse.t) : list pyobj :=
  response_value <$> filter (fun r => JsonRpcResponse.id r = Some k) responses.

Definition unlinked_values (responses : list JsonRpcResponse.t) : list pyobj :=
  response_value <$> filter (fun r => JsonRpcResponse.id r = None) responses.

(** One value stands for itself, several are kept together. *)
Definition linked (values : list pyobj) : option pyobj :=
  match values with
  | [] => None
  | [v] => Some v
  | _ => Some (DuplicatedResults values)
  end.

Definition fallback (responses : list JsonRpcResponse.t) : pyobj :=
  py_or (UnlinkedResults (unlinked_values responses)) py_None.

Definition resolved (responses : list JsonRpcResponse.t) (request : JsonRpcRequest.t) : pyobj :=
  match JsonRpcRequest.id request with
  | None => fallback responses
  | Some k => default (fallback responses) (linked (values_for k responses))
  end.

(** The state of the first loop once the responses [seen] are consumed. *)
Definition collected (seen : list JsonRpcResponse.t)
    (st : pyobj * gmap JsonRpcIdType pyobj) : Prop :=
  st.1 = UnlinkedResults (unlinked_values seen) ∧
  ∀ k, st.2 !! k = linked (values_for k seen).

(** The entry the second loop appends for a request. *)
Definition entry (unlinked_results : pyobj) (m : gmap JsonRpcIdType pyobj)
  (request : JsonRpcRequest.t) : pyobj :=
  if JsonRpcRequest.is_notification request then py_or unlinked_results py_None
  else dict_get m (JsonRpcRequest.id request) (py_or unlinked_results py_None).

(** The responses of the examples: an id and a result, no error. *)
Definition response_with (rid : option JsonRpcIdType) (result : pyval) : JsonRpcResponse.t :=
  JsonRpcResponse.mk rid result None.

(** [len(v)] of a sized value. *)
Definition py_len (v : pyval) : option nat :=
  match v with
  | PStr s => Some (String.length s)
  | PList items => Some (length items)
  | PDict items => Some (length items)
  | PNone | PBool _ | PInt _ => None
  end.

Definition nonempty (v : pyval) : bool :=
  match py_len v with
  | Some (S _) => true
  | _ => false
  end.

(** A shorthand description is a string or a sequence; its shape is right
    when it is a string or a sequence of one, two or three items. *)
Definition is_shorthand (d : MethodDescriptionType) : bool :=
  match d with
  | DescStr _ | DescSeq _ => true
  | DescRequest _ => false
  end.

Definition is_str_or_short_sequence (d : MethodDescriptionType) : bool :=
  match d with
  | DescStr _ => true
  | DescSeq items =>
      Nat.eqb (length items) 1 || Nat.eqb (length items) 2 || Nat.eqb (length items) 3
  | DescRequest _ => false
  end.

(** What [batch_notify] makes of a description: a notification, or the
    request it was given. *)
Definition forced_or_given (d : MethodDescriptionType) (request : JsonRpcRequest.t) : Prop :=
  match d with
  | DescStr _ | DescSeq _ => JsonRpcRequest.id request = None
  | DescRequest given => request = given
  end.

(** ** Concrete requests and a concrete world for the examples *)

Module Examples.
Import Reference.

Definition request_A : JsonRpcRequest.t :=
  JsonRpcRequest.mk (PStr "A") (Some (IdInt 1)) VERSION_2_0 [] [] None (PList []) (PDict []).
Definition request_B : JsonRpcRequest.t :=
  JsonRpcRequest.mk (PStr "B") None VERSION_2_0 [] [] None (PList []) (PDict []).
Definition request_C : JsonRpcRequest.t :=
  JsonRpcRequest.mk (PStr "C") (Some (IdInt 2)) VERSION_2_0 [] [] None (PList []) (PDict []).

(** The server answers C first, then A. *)
Definition answer_c_a : pyval :=
  PList [PDict [("id", PInt 2); ("jsonrpc", PStr "2.0"); ("result", PStr "c")];
         PDict [("id", PInt 1); ("jsonrpc", PStr "2.0"); ("result", PStr "a")]].

Definition world_0 : world := mkWorld 100 [answer_c_a] [].

End Examples.

(** * The rest of the request model and of the client *)

(** ** [protocol/request.py]: requests from the wire *)

(** [data[key]] and [data.get(key)] on the items of a [dict]; a [PDict]
    stands for a [dict], so a key occurs once in it. *)
Fixpoint dict_lookup (key : string) (items : list (string * pyval)) : option pyval :=
  match items with
  | [] => None
  | (k, v) :: rest => if String.eqb k key then Some v else dict_lookup key rest
  end.

Definition has_key (key : string) (items : list (string * pyval)) : bool :=
  match dict_lookup key items with Some _ => true | None => false end.

(** The message of the second check holds the two key names in double
    quotes. *)
Definition dquote : string :=
  String (Ascii.Ascii false true false false false true false false) EmptyString.

Definition must_contain_message : string :=
  "A request must contain " +:+ dquote +:+ "method" +:+ dquote +:+ " and "
    +:+ dquote +:+ "jsonrpc" +:+ dquote +:+ ".".

(** The value of [data.get('id')] as a field of the declared type
    [Optional[JsonRpcIdType]]: absent or null is [None], an int or a str
    is itself.  Any other value is outside that type: [None] here. *)
Definition wire_id (v : option pyval) : option (option JsonRpcIdType) :=
  match v with
  | None | Some PNone => Some None
  | Some (PInt n) => Some (Some (IdInt n))
  | Some (PStr s) => Some (Some (IdStr s))
  | Some (PBool _) | Some (PList _) | Some (PDict _) => None
  end.

(** The items of [to_dict]. *)
Definition to_dict_items (request : JsonRpcRequest.t) : list (string * pyval) :=
  match JsonRpcRequest.to_dict request with
  | PDict items => items
  | _ => []
  end.

(** Data that [_validate_json_request] accepts the shape of. *)
Definition is_request_shaped (data : pyval) : bool :=
  match data with
  | PDict items => has_key "method" items && has_key "jsonrpc" items
  | _ => false
  end.

Section from_the_wire.
Context `{Utils}.

(** [JsonRpcRequest._validate_json_request(data)].  The result is
    [None] when [data['jsonrpc']] is not a string: the field [jsonrpc] is
    declared [str] and the version check is known on strings only. *)
Definition _validate_json_request (data : pyval) : option (result unit) :=
  match data with
  | PDict items =>
      if has_key "method" items && has_key "jsonrpc" items then
        match dict_lookup "jsonrpc" items with
        | Some (PStr version) => Some (validate_jsonrpc version)
        | _ => None
        end
      else Some (Raise (InvalidRequest must_contain_message))
  | _ => Some (Raise (InvalidRequest "A request must be of the dict type."))
  end.

(** [JsonRpcRequest.from_dict(data, **kwargs)]; the keyword arguments a
    caller can add are the four remaining fields, with their defaults
    [extra_args={}], [context={}], [args=None], [kwargs=None].  The
    result is [None] when the id or the version in [data] is outside the
    declared type of its field. *)
Definition from_dict (data : pyval) (extra_args context : list (string * pyval))
    (args kwargs : pyval) : option (result JsonRpcRequest.t) :=
  match _validate_json_request data with
  | None => None
  | Some (Raise e) => Some (Raise e)
  | Some (Ok _) =>
      match data with
      | PDict items =>
          match wire_id (dict_lookup "id" items),
                dict_lookup "method" items,
                dict_lookup "jsonrpc" items with
          | Some rid, Some method_name, Some (PStr version) =>
              Some (JsonRpcRequest.new method_name rid version extra_args context
                      (dict_lookup "params" items) args kwargs)
          | _, _, _ => None
          end
      | _ => None
      end
  end.

(** The list comprehension of [JsonRpcBatchRequest.from_list]: the first
    item that raises ends it. *)
Fixpoint from_dicts (items : list pyval) (extra_args context : list (string * pyval))
    (args kwargs : pyval) : option (result (list JsonRpcRequest.t)) :=
  match items with
  | [] => Some (Ok [])
  | item :: rest =>
      match from_dict item extra_args context args kwargs with
      | None => None
      | Some (Raise e) => Some (Raise e)
      | Some (Ok request) =>
          match from_dicts rest extra_args context args kwargs with
          | None => None
          | Some (Raise e) => Some (Raise e)
          | Some (Ok requests) => Some (Ok (request :: requests))
          end
      end
  end.

(** [JsonRpcBatchRequest.from_list(data, **kwargs)] on a list, as [data]
    is declared; [None] on anything else. *)
Definition from_list_of_requests (data : pyval)
    (extra_args context : list (string * pyval)) (args kwargs : pyval)
    : option (result JsonRpcBatchRequest.t) :=
  match data with
  | PList items =>
      match from_dicts items extra_args context args kwargs with
      | None => None
      | Some (Raise e) => Some (Raise e)
      | Some (Ok requests) => Some (JsonRpcBatchRequest.new requests)
      end
  | _ => None
  end.

End from_the_wire.

(** ** More about correlation *)

(** A response that can reach the result: it has no id, or the id of one
    of the requests. *)
Definition relevant (requests : list JsonRpcRequest.t) (r : JsonRpcResponse.t) : Prop :=
  JsonRpcResponse.id r = None ∨
  JsonRpcResponse.id r ∈ (JsonRpcRequest.id <$> requests).

#[global] Instance relevant_dec requests r : Decision (relevant requests r).
Proof. unfold relevant. apply _. Defined.

(** An entry that holds nothing but values of the responses: [None], one
    value, or an accumulator of values. *)
Definition made_of (values : list pyobj) (o : pyobj) : Prop :=
  o = py_None ∨ o ∈ values ∨
  ∃ data, (o = DuplicatedResults data ∨ o = UnlinkedResults data) ∧ data ⊆ values.

(** The request and the response at the same position carry the same
    id. *)
Definition answers (request : JsonRpcRequest.t) (response : JsonRpcResponse.t) : Prop :=
  JsonRpcRequest.id request = JsonRpcResponse.id response ∧
  JsonRpcResponse.id response ≠ None.

(** What [batch] makes of a description: a request with an id, or the
    request it was given. *)
Definition called_or_given (d : MethodDescriptionType) (request : JsonRpcRequest.t) : Prop :=
  match d with
  | DescStr _ | DescSeq _ => JsonRpcRequest.is_notification request = false
  | DescRequest given => request = given
  end.

(** A shorthand description of the wrong shape. *)
Definition malformed (d : MethodDescriptionType) : Prop :=
  is_shorthand d = true ∧ is_str_or_short_sequence d = false.

(** ** [client/base.py]: single calls *)

(** Modelled from the spec: [protocol.JsonRpcResponse.from_dict] is not
    among the sources; with the error map of the client and the context
    of the transport it parses a decoded payload or raises. *)
Class ResponseParser : Type := {
  JsonRpcResponse_from_dict :
    pyval → option (list (string * pyval)) → result JsonRpcResponse.t
}.

(** How [call] ends when no exception of the client stops it: it returns
    [response.result], or [raise response.error] raises the error object
    of the response. *)
Inductive call_outcome : Type :=
  | Returned (value : pyval)
  | RaisedError (error : JsonRpcError).

Section single_calls.
Context {W : Type} `{Utils} `{Client W} `{ResponseParser}.

(** The extra keyword arguments [direct_call] hands on to [send_json]
    are those of its caller; [call] and [notify] give none. *)
Definition direct_call (request : JsonRpcRequest.t) : M W (option JsonRpcResponse.t) :=
  '(json_response, context) ←
    send_json (JsonRpcRequest.to_dict request) (JsonRpcRequest.is_notification request);
  if JsonRpcRequest.is_notification request then mret None
  else
    response ← lift (JsonRpcResponse_from_dict json_response context);
    mret (Some response).

(** [*args] is a tuple and [**kwargs] a dict: never [None]. *)
Definition call (method_name : string) (args : list pyval)
    (kwargs : list (string * pyval)) : M W call_outcome :=
  request_id ← (fun w => let '(i, w') := get_random_id w in (Ok i, w'));
  request ← lift (JsonRpcRequest.new (PStr method_name) (Some request_id)
                    VERSION_2_0 [] [] None (PList args) (PDict kwargs));
  response ← direct_call request;
  match response with
  | None => raise AssertionError
  | Some response =>
      match JsonRpcResponse.error response with
      | Some error => mret (RaisedError error)
      | None => mret (Returned (JsonRpcResponse.result response))
      end
  end.

Definition notify (method_name : string) (args : list pyval)
    (kwargs : list (string * pyval)) : M W unit :=
  request ← lift (JsonRpcRequest.new (PStr method_name) None
                    VERSION_2_0 [] [] None (PList args) (PDict kwargs));
  _ ← direct_call request;
  mret tt.

(** [__getattr__]: [partial(self.call, method_name)]. *)
Definition __getattr__ (method_name : string)
    : list pyval → list (string * pyval) → M W call_outcome :=
  call method_name.

End single_calls.

(** The reference parser of single responses, for the examples. *)
Module ReferenceCalls.

#[export] Instance parser : ResponseParser :=
  Build_ResponseParser (fun data _ => Reference.response_from_dict data).

(** The server answers one call with the result 19. *)
Definition answer_19 : pyval :=
  PDict [("id", PInt 100); ("jsonrpc", PStr "2.0"); ("result", PInt 19)].

Definition world_call : Reference.world := Reference.mkWorld 100 [answer_19] [].

End ReferenceCalls.

(** More concrete inputs for the examples. *)
Module MoreExamples.

(** A request built from [params]. *)
Definition request_sum : JsonRpcRequest.t :=
  JsonRpcRequest.mk (PStr "sum") (Some (IdInt 3)) VERSION_2_0 [] []
    (Some (PList [PInt 1; PInt 2])) (PList [PInt 1; PInt 2]) (PDict []).

(** A second request with the id of [Examples.request_A]. *)
Definition request_A' : JsonRpcRequest.t :=
  JsonRpcRequest.mk (PStr "again") (Some (IdInt 1)) VERSION_2_0 [] [] None
    (PList []) (PDict []).

(** The server is silent. *)
Definition world_silent : Reference.world := Reference.mkWorld 100 [] [].

(** The server answers A, then C. *)
Definition answer_a_c : pyval :=
  PList [PDict [("id", PInt 1); ("jsonrpc", PStr "2.0"); ("result", PStr "a")];
         PDict [("id", PInt 2); ("jsonrpc", PStr "2.0"); ("result", PStr "c")]].

Definition world_in_order : Reference.world := Reference.mkWorld 100 [answer_a_c] [].

End MoreExamples.

(** * Properties *)

Section correlation.
Implicit Types (r response : JsonRpcResponse.t) (request : JsonRpcRequest.t).
Implicit Types (k : JsonRpcIdType) (m : gmap JsonRpcIdType pyobj).

Lemma response_value_plain r :
  isinstance_DuplicatedResults (response_value r) = false.
Proof. unfold response_value. by destruct (JsonRpcResponse.error r). Qed.

Lemma values_for_snoc k seen r :
  values_for k (seen ++ [r]) =
  values_for k seen ++ (if decide (JsonRpcResponse.id r = Some k) then [response_value r] else []).
Proof.
  unfold values_for. rewrite filter_app, fmap_app. f_equal.
  rewrite filter_cons, filter_nil. by case_decide.
Qed.

Lemma unlinked_values_snoc seen r :
  unlinked_values (seen ++ [r]) =
  unlinked_values seen ++ (if decide (JsonRpcResponse.id r = None) then [response_value r] else []).
Proof.
  unfold unlinked_values. rewrite filter_app, fmap_app. f_equal.
  rewrite filter_cons, filter_nil. by case_decide.
Qed.

Lemma values_for_plain k seen :
  Forall (fun v => isinstance_DuplicatedResults v = false) (values_for k seen).
Proof.
  unfold values_for. apply Forall_fmap, Forall_forall. intros r _.
  apply response_value_plain.
Qed.

(** A [DuplicatedResults] in the map holds at least two values, and it
    holds all the values of its id. *)
Lemma linked_duplicated values d :
  Forall (fun v => isinstance_DuplicatedResults v = false) values →
  linked values = Some (DuplicatedResults d) → d = values ∧ (2 ≤ length values)%nat.
Proof.
  intros Hplain Hl. destruct values as [|v [|v' rest]]; simpl in Hl.
  - discriminate.
  - inversion Hl; subst. inversion Hplain; subst. discriminate.
  - inversion Hl; subst. split; [done | simpl; lia].
Qed.

Lemma linked_single values v :
  isinstance_DuplicatedResults v = false →
  linked values = Some v → values = [v].
Proof.
  intros Hv Hl. destruct values as [|v0 [|v' rest]]; simpl in Hl.
  - discriminate.
  - by inversion Hl.
  - inversion Hl; subst. discriminate.
Qed.

Lemma linked_snoc_duplicated values v :
  (2 ≤ length values)%nat →
  linked (values ++ [v]) = Some (DuplicatedResults (values ++ [v])).
Proof.
  destruct values as [|v0 [|v1 rest]]; simpl; try lia. done.
Qed.

(** One turn of the first loop never raises and keeps the invariant. *)
Lemma collect_response_collected seen st r :
  collected seen st →
  ∃ st', collect_response st r = Ok st' ∧ collected (seen ++ [r]) st'.
Proof.
  destruct st as [u m]. intros [Hu Hm]. simpl in Hu, Hm. subst u.
  unfold collect_response.
  destruct (JsonRpcResponse.id r) as [rid|] eqn:Hid.
  - unfold dict_contains, dict_getitem.
    destruct (m !! rid) as [cur|] eqn:Hcur.
    + rewrite bool_decide_eq_true_2 by eauto. simpl.
      pose proof (Hm rid) as Hrid. rewrite Hcur in Hrid. symmetry in Hrid.
      destruct (isinstance_DuplicatedResults cur) eqn:Hdup.
      * destruct cur as [| |d|]; try discriminate. simpl.
        destruct (linked_duplicated _ _ (values_for_plain rid seen) Hrid) as [-> Hlen].
        eexists. split; [reflexivity|]. split; simpl.
        -- rewrite unlinked_values_snoc, Hid.
           rewrite decide_False by done. by rewrite app_nil_r.
        -- intros k. rewrite values_for_snoc, Hid.
           destruct (decide (rid = k)) as [->|Hne].
           ++ rewrite lookup_insert_eq, decide_True by done.
              by rewrite linked_snoc_duplicated.
           ++ rewrite lookup_insert_ne by done.
              rewrite decide_False by congruence. by rewrite app_nil_r.
      * apply linked_single in Hrid; [|done].
        eexists. split; [reflexivity|]. split; simpl.
        -- rewrite unlinked_values_snoc, Hid.
           rewrite decide_False by done. by rewrite app_nil_r.
        -- intros k. rewrite values_for_snoc, Hid.
           destruct (decide (rid = k)) as [->|Hne].
           ++ rewrite lookup_insert_eq, decide_True by done.
              by rewrite Hrid.
           ++ rewrite lookup_insert_ne by done.
              rewrite decide_False by congruence. by rewrite app_nil_r.
    + rewrite bool_decide_eq_false_2 by (intros [? ?]; congruence).
      eexists. split; [reflexivity|]. split; simpl.
      * rewrite unlinked_values_snoc, Hid.
        rewrite decide_False by done. by rewrite app_nil_r.
      * intros k. rewrite values_for_snoc, Hid.
        destruct (decide (rid = k)) as [->|Hne].
        -- rewrite lookup_insert_eq, decide_True by done.
           pose proof (Hm k) as Hk. rewrite Hcur in Hk.
           destruct (values_for k seen) as [|? [|? ?]]; simpl in *; congruence.
        -- rewrite lookup_insert_ne by done.
           rewrite decide_False by congruence. by rewrite app_nil_r.
  - simpl. eexists. split; [reflexivity|]. split; simpl.
    + by rewrite unlinked_values_snoc, Hid, decide_True.
    + intros k. rewrite values_for_snoc, Hid.
      rewrite decide_False by done. by rewrite app_nil_r.
Qed.

(** The whole first loop, from any state the invariant holds in. *)
Lemma collect_responses_collected responses seen st :
  collected seen st →
  ∃ st', for_each collect_response responses st = Ok st' ∧
         collected (seen ++ responses) st'.
Proof.
  revert seen st. induction responses as [|r rest IH]; intros seen st Hst.
  - exists st. simpl. by rewrite app_nil_r.
  - destruct (collect_response_collected seen st r Hst) as (st1 & Hstep & Hst1).
    destruct (IH _ _ Hst1) as (st' & Hrest & Hst').
    exists st'. simpl. rewrite Hstep. simpl. split; [done|].
    by rewrite <- app_assoc in Hst'.
Qed.

Lemma collected_initial : collected [] (UnlinkedResults [], ∅).
Proof. split; [done|]. intros k. simpl. apply lookup_empty. Qed.

Lemma collect_requests_entries unlinked_results m requests acc :
  fold_left (collect_request unlinked_results m) requests acc =
  acc ++ (entry unlinked_results m <$> requests).
Proof.
  revert acc. induction requests as [|request rest IH]; intros acc; simpl.
  - by rewrite app_nil_r.
  - rewrite IH. unfold collect_request, entry.
    destruct (JsonRpcRequest.is_notification request); by rewrite <- app_assoc.
Qed.

Lemma entry_resolved responses st request :
  collected responses st →
  entry st.1 st.2 request = resolved responses request.
Proof.
  destruct st as [u m]. intros [Hu Hm]. simpl in *. subst u.
  unfold entry, resolved, JsonRpcRequest.is_notification, fallback.
  destruct (JsonRpcRequest.id request) as [k|] eqn:Hk.
  - rewrite bool_decide_eq_false_2 by done. simpl. rewrite Hm.
    by destruct (linked (values_for k responses)).
  - by rewrite bool_decide_eq_true_2.
Qed.

(** [_collect_batch_result] returns, and returns the entry of each
    request in the order of the requests. *)
Lemma _collect_batch_result_resolved batch_request batch_response :
  _collect_batch_result batch_request batch_response =
  Ok (resolved (JsonRpcBatchResponse.responses batch_response)
        <$> JsonRpcBatchRequest.requests batch_request).
Proof.
  unfold _collect_batch_result.
  destruct (collect_responses_collected (JsonRpcBatchResponse.responses batch_response)
              [] _ collected_initial) as ([u m] & Hloop & Hst).
  rewrite Hloop. simpl. f_equal.
  rewrite collect_requests_entries. simpl.
  apply list_fmap_ext. intros i request _.
  apply (entry_resolved _ (u, m) request Hst).
Qed.

End correlation.

(** ** The order of the responses

    When no id occurs twice among the responses (and at most one response
    has none), each request resolves to the same entry whatever the order
    the server answers in. *)

Section response_order.

Lemma filter_none {A} (P : A → Prop) `{∀ x, Decision (P x)} (l : list A) :
  Forall (fun x => ¬ P x) l → filter P l = [].
Proof.
  induction 1 as [|x rest Hx _ IH]; [done|].
  by rewrite filter_cons, decide_False, IH.
Qed.

Lemma filter_same_id_length (P : JsonRpcResponse.t → Prop) `{∀ r, Decision (P r)}
    (responses : list JsonRpcResponse.t) :
  (∀ r r', P r → P r' → JsonRpcResponse.id r = JsonRpcResponse.id r') →
  NoDup (JsonRpcResponse.id <$> responses) →
  (length (filter P responses) ≤ 1)%nat.
Proof.
  intros Hsame. induction responses as [|r rest IH]; simpl; [lia|].
  rewrite NoDup_cons. intros [Hnotin Hnodup].
  rewrite filter_cons. case_decide as Hr; [|by apply IH].
  simpl. rewrite filter_none; [simpl; lia|].
  apply Forall_forall. intros r' Hin Hr'.
  apply Hnotin. rewrite (Hsame r r' Hr Hr'). by apply list_elem_of_fmap_2.
Qed.

Lemma permutation_short {A} (l l' : list A) :
  l ≡ₚ l' → (length l ≤ 1)%nat → l = l'.
Proof.
  intros Hp Hlen. destruct l as [|a [|b rest]]; simpl in Hlen; try lia.
  - by apply Permutation_nil_l in Hp.
  - by apply Permutation_singleton_l in Hp.
Qed.

Lemma values_for_permutation k responses responses' :
  responses ≡ₚ responses' →
  NoDup (JsonRpcResponse.id <$> responses) →
  values_for k responses = values_for k responses'.
Proof.
  intros Hp Hnodup. unfold values_for. f_equal. apply permutation_short.
  - by rewrite Hp.
  - apply filter_same_id_length; [congruence | done].
Qed.

Lemma unlinked_values_permutation responses responses' :
  responses ≡ₚ responses' →
  NoDup (JsonRpcResponse.id <$> responses) →
  unlinked_values responses = unlinked_values responses'.
Proof.
  intros Hp Hnodup. unfold unlinked_values. f_equal. apply permutation_short.
  - by rewrite Hp.
  - apply filter_same_id_length; [congruence | done].
Qed.

Lemma resolved_permutation responses responses' request :
  responses ≡ₚ responses' →
  NoDup (JsonRpcResponse.id <$> responses) →
  resolved responses request = resolved responses' request.
Proof.
  intros Hp Hnodup. unfold resolved, fallback.
  rewrite (unlinked_values_permutation responses responses') by done.
  destruct (JsonRpcRequest.id request) as [k|]; [|done].
  by rewrite (values_for_permutation k responses responses').
Qed.

Lemma _collect_batch_result_permutation batch_request responses responses' :
  responses ≡ₚ responses' →
  NoDup (JsonRpcResponse.id <$> responses) →
  _collect_batch_result batch_request (JsonRpcBatchResponse.mk responses) =
  _collect_batch_result batch_request (JsonRpcBatchResponse.mk responses').
Proof.
  intros Hp Hnodup. rewrite !_collect_batch_result_resolved. simpl. f_equal.
  apply list_fmap_ext. intros i request _. by apply resolved_permutation.
Qed.

End response_order.

(** ** Running the client *)

Section running.
Context {W : Type}.

Lemma bind_Ok {A B} (m : M W A) (k : A → M W B) (w w' : W) (a : A) :
  m w = (Ok a, w') → (m ≫= k) w = k a w'.
Proof. intros Hm. unfold mbind, M_bind. by rewrite Hm. Qed.

Lemma bind_Raise {A B} (m : M W A) (k : A → M W B) (w w' : W) (e : exception) :
  m w = (Raise e, w') → (m ≫= k) w = (Raise e, w').
Proof. intros Hm. unfold mbind, M_bind. by rewrite Hm. Qed.

Context `{Utils} `{Client W}.

(** A batch that is not all notifications, a transport that answers and
    an answer that parses: [direct_batch] returns the parsed answer. *)
Lemma direct_batch_answer (batch_request : JsonRpcBatchRequest.t) (w w' : W)
    (payload : pyval) (context : option (list (string * pyval)))
    (batch_response : JsonRpcBatchResponse.t) :
  JsonRpcBatchRequest.requests batch_request ≠ [] →
  JsonRpcBatchRequest.is_notification batch_request = false →
  send_json (JsonRpcBatchRequest.to_list batch_request) false w = (Ok (payload, context), w') →
  py_truthy payload = true →
  from_list payload = Ok batch_response →
  direct_batch batch_request w = (Ok (Some batch_response), w').
Proof.
  intros Hne Hnotif Hsend Htruthy Hparse. unfold direct_batch.
  destruct (JsonRpcBatchRequest.requests batch_request); [done|].
  rewrite Hnotif. erewrite bind_Ok by exact Hsend.
  cbv beta iota. rewrite Htruthy. cbn [negb].
  erewrite bind_Ok; [reflexivity|].
  unfold lift. by rewrite Hparse.
Qed.

End running.

(** ** Batch correlation: the claims *)

(** C1.  For every batch request and every batch response,
    [_collect_batch_result] returns a list as long as the list of
    requests, and the entry at each position is the entry the request at
    that position resolves to: the order of the requests is kept, whatever
    the order of the responses. *)
Theorem collect_batch_result_keeps_request_order
    (batch_request : JsonRpcBatchRequest.t) (batch_response : JsonRpcBatchResponse.t) :
  ∃ res : list pyobj,
    _collect_batch_result batch_request batch_response = Ok res ∧
    length res = length (JsonRpcBatchRequest.requests batch_request) ∧
    ∀ i : nat,
      res !! i = resolved (JsonRpcBatchResponse.responses batch_response)
                   <$> JsonRpcBatchRequest.requests batch_request !! i.
Proof.
  eexists. split; [apply _collect_batch_result_resolved|]. split.
  - apply length_fmap.
  - intros i. apply list_lookup_fmap.
Qed.

(** C6.  For every batch request and every batch response, with ids that
    match no request, null ids, duplicate ids, fewer or more responses
    than requests, [_collect_batch_result] returns a list: no [dict]
    access and no [add] in it raises. *)
Theorem collect_batch_result_never_raises
    (batch_request : JsonRpcBatchRequest.t) (batch_response : JsonRpcBatchResponse.t) :
  ∃ res : list pyobj, _collect_batch_result batch_request batch_response = Ok res.
Proof.
  unfold _collect_batch_result.
  destruct (collect_responses_collected (JsonRpcBatchResponse.responses batch_response)
              [] _ collected_initial) as ([u m] & Hloop & _).
  rewrite Hloop. simpl. eauto.
Qed.

(** C2.  The requests [A(id=1), B(notification), C(id=2)] with the
    responses [{id:2, result:"c"}, {id:1, result:"a"}] correlate to
    ["a", None, "c"], and that is what [batch] returns with
    [save_order=True] when the transport delivers these responses. *)
Theorem batch_correlation_follows_requests `{Utils} {W : Type} `{Client W}
    (A B C : JsonRpcRequest.t) (w w' : W) (payload : pyval)
    (context : option (list (string * pyval))) :
  let batch_request := JsonRpcBatchRequest.mk [A; B; C] in
  let batch_response :=
    JsonRpcBatchResponse.mk [response_with (Some (IdInt 2)) (PStr "c");
                      response_with (Some (IdInt 1)) (PStr "a")] in
  JsonRpcRequest.id A = Some (IdInt 1) →
  JsonRpcRequest.id B = None →
  JsonRpcRequest.id C = Some (IdInt 2) →
  send_json (JsonRpcBatchRequest.to_list batch_request) false w = (Ok (payload, context), w') →
  py_truthy payload = true →
  from_list payload = Ok batch_response →
  _collect_batch_result batch_request batch_response
    = Ok [Value (PStr "a"); py_None; Value (PStr "c")] ∧
  batch (DescBatch batch_request) true w
    = (Ok [Value (PStr "a"); py_None; Value (PStr "c")], w').
Proof.
  intros batch_request batch_response HA HB HC Hsend Htruthy Hparse.
  assert (_collect_batch_result batch_request batch_response
          = Ok [Value (PStr "a"); py_None; Value (PStr "c")]) as Hcollect.
  { rewrite _collect_batch_result_resolved. simpl.
    unfold resolved. rewrite HA, HB, HC. reflexivity. }
  split; [exact Hcollect|].
  assert (JsonRpcBatchRequest.is_notification batch_request = false) as Hnotif.
  { unfold JsonRpcBatchRequest.is_notification, JsonRpcRequest.is_notification. simpl.
    rewrite HA. reflexivity. }
  unfold batch.
  erewrite bind_Ok by reflexivity.
  erewrite bind_Ok
    by (eapply direct_batch_answer; [done | exact Hnotif | exact Hsend | done | done]).
  unfold lift. by rewrite Hcollect.
Qed.

(** C3.  One request [A(id=1)] and two responses with id 1 and the
    results "x" and "y": the entry of A is a [DuplicatedResults] holding
    "x" and "y" in that order. *)
Theorem duplicate_ids_are_kept_together (A : JsonRpcRequest.t) :
  JsonRpcRequest.id A = Some (IdInt 1) →
  _collect_batch_result (JsonRpcBatchRequest.mk [A])
    (JsonRpcBatchResponse.mk [response_with (Some (IdInt 1)) (PStr "x");
                       response_with (Some (IdInt 1)) (PStr "y")])
  = Ok [DuplicatedResults [Value (PStr "x"); Value (PStr "y")]].
Proof.
  intros HA. rewrite _collect_batch_result_resolved. simpl.
  unfold resolved. rewrite HA. reflexivity.
Qed.

Lemma values_for_none k (responses : list JsonRpcResponse.t) :
  Forall (fun r => JsonRpcResponse.id r ≠ Some k) responses → values_for k responses = [].
Proof. intros Hno. unfold values_for. by rewrite filter_none. Qed.

Lemma values_for_app k (before after : list JsonRpcResponse.t) :
  values_for k (before ++ after) = values_for k before ++ values_for k after.
Proof. unfold values_for. by rewrite filter_app, fmap_app. Qed.

Lemma values_for_some k (responses : list JsonRpcResponse.t) :
  Exists (fun r => JsonRpcResponse.id r = Some k) responses → values_for k responses ≠ [].
Proof.
  induction 1 as [r rest Hr | r rest _ IH]; unfold values_for in *;
    rewrite filter_cons; case_decide; simpl; congruence.
Qed.

(** C7.  A request with an id resolves to the value of the response that
    carries its id, also when responses without id are present; with
    several such responses it resolves to their [DuplicatedResults]; the
    unlinked fallback is its entry only when no response carries its
    id. *)
Theorem exact_id_match_wins (batch_request : JsonRpcBatchRequest.t)
    (batch_response : JsonRpcBatchResponse.t) (i : nat) (request : JsonRpcRequest.t)
    (k : JsonRpcIdType) :
  JsonRpcBatchRequest.requests batch_request !! i = Some request →
  JsonRpcRequest.id request = Some k →
  let responses := JsonRpcBatchResponse.responses batch_response in
  ∃ res : list pyobj,
    _collect_batch_result batch_request batch_response = Ok res ∧
    (∀ before r after,
       responses = before ++ r :: after →
       JsonRpcResponse.id r = Some k →
       Forall (fun r' => JsonRpcResponse.id r' ≠ Some k) (before ++ after) →
       res !! i = Some (response_value r)) ∧
    (Exists (fun r => JsonRpcResponse.id r = Some k) responses →
       res !! i = linked (values_for k responses)) ∧
    (Forall (fun r => JsonRpcResponse.id r ≠ Some k) responses →
       res !! i = Some (fallback responses)).
Proof.
  intros Hi Hk responses.
  eexists. split; [apply _collect_batch_result_resolved|].
  fold responses. rewrite list_lookup_fmap, Hi. simpl.
  unfold resolved. rewrite Hk.
  split; [|split].
  - intros before r after Hresp Hr Hothers.
    apply Forall_app in Hothers as [Hbefore Hafter].
    rewrite Hresp, values_for_app, (values_for_none k before Hbefore).
    change (r :: after) with ([r] ++ after).
    rewrite values_for_app, (values_for_none k after Hafter).
    unfold values_for. rewrite filter_cons, decide_True by done. reflexivity.
  - intros Hsome. apply values_for_some in Hsome.
    destruct (linked (values_for k responses)) eqn:Hl; [done|].
    by destruct (values_for k responses) as [|? [|? ?]].
  - intros Hno. by rewrite values_for_none.
Qed.


(** ** Request construction *)

Section construction.
Context `{Utils}.

Lemma nonempty_not_None (v : pyval) : nonempty v = true → JsonRpcRequest.is_None v = false.
Proof. by destruct v. Qed.

(** The constructor keeps the id (and every field but [params], [args]
    and [kwargs]) it was given. *)
Lemma new_keeps_id method_name rid jsonrpc extra_args context params args kwargs
    (request : JsonRpcRequest.t) :
  JsonRpcRequest.new method_name rid jsonrpc extra_args context params args kwargs
    = Ok request →
  JsonRpcRequest.id request = rid.
Proof.
  unfold JsonRpcRequest.new, JsonRpcRequest.__post_init__, JsonRpcRequest.set_params,
    JsonRpcRequest.set_args_and_kwargs, mbind, result_bind. simpl.
  destruct (validate_jsonrpc jsonrpc) as [[]|]; [|done].
  destruct params as [p|].
  - destruct (JsonRpcRequest.is_None args && JsonRpcRequest.is_None kwargs); [|done].
    destruct (convert_params_to_args_and_kwargs (Some p)) as [[a k]|]; [|done].
    by intros [= <-].
  - destruct (parse_args_and_kwargs args kwargs) as [[[p a] k]|]; [|done].
    by intros [= <-].
Qed.

(** C8.  With a valid protocol version: a constructor call that gives
    [params] together with non-empty [args] or [kwargs] raises
    [InvalidParams]; one that gives only [params] stores the [args] and
    [kwargs] that [convert_params_to_args_and_kwargs] derives from it;
    one that gives only [args] and [kwargs] stores the [params] that
    [parse_args_and_kwargs] derives from them. *)
Theorem params_exclude_args_and_kwargs (method_name : pyval)
    (rid : option JsonRpcIdType) (jsonrpc : string)
    (extra_args context : list (string * pyval)) (args kwargs : pyval) :
  validate_jsonrpc jsonrpc = Ok tt →
  (∀ p : pyval,
     nonempty args = true ∨ nonempty kwargs = true →
     JsonRpcRequest.new method_name rid jsonrpc extra_args context (Some p) args kwargs
     = Raise (InvalidParams "Need use params or args with kwargs.")) ∧
  (∀ p : pyval,
     JsonRpcRequest.new method_name rid jsonrpc extra_args context (Some p) PNone PNone
     = '(a, k) ← convert_params_to_args_and_kwargs (Some p);
       Ok (JsonRpcRequest.mk method_name rid jsonrpc extra_args context (Some p) a k)) ∧
  JsonRpcRequest.new method_name rid jsonrpc extra_args context None args kwargs
  = '(p, a, k) ← parse_args_and_kwargs args kwargs;
    Ok (JsonRpcRequest.mk method_name rid jsonrpc extra_args context p a k).
Proof.
  intros Hvalid. unfold JsonRpcRequest.new, JsonRpcRequest.__post_init__. simpl.
  rewrite Hvalid. unfold mbind at 1 3 5, result_bind at 1 3 5. split; [|split].
  - intros p [Hargs|Hkwargs].
    + by rewrite (nonempty_not_None _ Hargs).
    + rewrite (nonempty_not_None _ Hkwargs). by rewrite andb_false_r.
  - intros p. reflexivity.
  - reflexivity.
Qed.

End construction.

(** ** Batch shorthand *)

Section shorthand.
Context `{Utils} {W : Type} `{Client W}.

(** C9.  A shorthand description that is neither a string nor a sequence
    of length 1, 2 or 3 makes [_parse_method_description] raise
    [InvalidParams]. *)
Theorem malformed_description_raises (d : MethodDescriptionType)
    (is_notification : bool) (w : W) :
  is_shorthand d = true →
  is_str_or_short_sequence d = false →
  (_parse_method_description d is_notification w).1
  = Raise (InvalidParams "Use string or list (length less than or equal to 3).").
Proof.
  intros Hshort Hshape. destruct d as [name|items|request]; try discriminate.
  unfold _parse_method_description, new_request_id, mbind, M_bind.
  destruct is_notification.
  - by destruct items as [|? [|? [|? [|? ?]]]].
  - destruct (get_random_id w) as [i w1].
    by destruct items as [|? [|? [|? [|? ?]]]].
Qed.

(** C10.  A description that is already a [JsonRpcRequest] is returned
    as it is, whatever [is_notification] says; no id is drawn. *)
Theorem prebuilt_request_is_returned (request : JsonRpcRequest.t)
    (is_notification : bool) (w : W) :
  _parse_method_description (DescRequest request) is_notification w = (Ok request, w).
Proof. reflexivity. Qed.

(** A list of pre-built requests becomes the batch request of these
    requests, for [batch] and for [batch_notify] alike. *)
Lemma prebuilt_requests_pass_through (requests : list JsonRpcRequest.t)
    (is_notification : bool) (w : W) :
  make_batch_request (Descriptions (DescRequest <$> requests)) is_notification w
  = (Ok (JsonRpcBatchRequest.mk requests), w).
Proof.
  unfold make_batch_request.
  erewrite bind_Ok; [reflexivity|].
  induction requests as [|request rest IH]; [reflexivity|].
  simpl. erewrite bind_Ok by reflexivity. by erewrite bind_Ok by exact IH.
Qed.

Lemma lift_new_keeps_id method_name rid jsonrpc extra_args context params args kwargs
    (request : JsonRpcRequest.t) (w w' : W) :
  lift (JsonRpcRequest.new method_name rid jsonrpc extra_args context params args kwargs) w
    = (Ok request, w') →
  JsonRpcRequest.id request = rid.
Proof. unfold lift. intros [= Hnew _]. by apply new_keeps_id in Hnew. Qed.

(** With [is_notification=True], a shorthand description yields a
    request without id and a pre-built request yields itself. *)
Lemma _parse_method_description_notification (d : MethodDescriptionType)
    (request : JsonRpcRequest.t) (w w' : W) :
  _parse_method_description d true w = (Ok request, w') →
  forced_or_given d request.
Proof.
  destruct d as [name|items|given]; simpl.
  - unfold mbind, M_bind, new_request_id. apply lift_new_keeps_id.
  - unfold mbind, M_bind, new_request_id.
    destruct items as [|? [|? [|? [|? ?]]]]; try discriminate;
      apply lift_new_keeps_id.
  - by intros [= <- _].
Qed.

Lemma comprehension_Forall2 {A B} (f : A → M W B) (P : A → B → Prop)
    (items : list A) (w w' : W) (out : list B) :
  (∀ x y w1 w2, f x w1 = (Ok y, w2) → P x y) →
  comprehension f items w = (Ok out, w') →
  Forall2 P items out.
Proof.
  intros Hf. revert w out. induction items as [|x rest IH]; intros w out; simpl.
  - intros [= <- _]. constructor.
  - unfold mbind, M_bind.
    destruct (f x w) as [[y|e] w1] eqn:Hx; [|done].
    destruct (comprehension f rest w1) as [[ys|e] w2] eqn:Hrest; [|done].
    intros [= <- <-]. constructor; eauto.
Qed.

(** C5, amended.  In the batch request [batch_notify] builds from a list
    of descriptions, there is one request per description, in order;
    the request of a shorthand description is a notification, the
    request of a pre-built [JsonRpcRequest] is that request. *)
Theorem batch_notify_forces_shorthand (items : list MethodDescriptionType)
    (w w' : W) (batch_request : JsonRpcBatchRequest.t) :
  make_batch_request (Descriptions items) true w = (Ok batch_request, w') →
  Forall2 forced_or_given items (JsonRpcBatchRequest.requests batch_request).
Proof.
  unfold make_batch_request, mbind, M_bind.
  destruct (comprehension _ items w) as [[requests|e] w1] eqn:Hitems; [|done].
  unfold lift, JsonRpcBatchRequest.new. intros [= <- _]. simpl.
  eapply comprehension_Forall2; [|exact Hitems].
  intros d request w2 w3. apply _parse_method_description_notification.
Qed.

(** C4, amended.  Sending a batch request without requests raises
    [InvalidRequest] before the transport is used; so do [batch] and
    [batch_notify] on an empty list of descriptions. *)
Theorem empty_batch_is_refused_when_sent (save_order : bool) (w : W) :
  direct_batch (JsonRpcBatchRequest.mk []) w
    = (Raise (InvalidRequest "You can not send an empty batch request."), w) ∧
  batch (Descriptions []) save_order w
    = (Raise (InvalidRequest "You can not send an empty batch request."), w) ∧
  batch_notify (Descriptions []) w
    = (Raise (InvalidRequest "You can not send an empty batch request."), w).
Proof. repeat split. Qed.

End shorthand.

(** * More of the request model *)

Section request_model.
Context `{Utils}.

(** What a successful constructor call went through. *)
Lemma new_Ok_inv method_name rid jsonrpc extra_args context params args kwargs
    (request : JsonRpcRequest.t) :
  JsonRpcRequest.new method_name rid jsonrpc extra_args context params args kwargs
    = Ok request →
  validate_jsonrpc jsonrpc = Ok tt ∧
  ∃ p a k,
    request = JsonRpcRequest.mk method_name rid jsonrpc extra_args context p a k ∧
    match params with
    | Some given =>
        args = PNone ∧ kwargs = PNone ∧ p = Some given ∧
        convert_params_to_args_and_kwargs (Some given) = Ok (a, k)
    | None => parse_args_and_kwargs args kwargs = Ok (p, a, k)
    end.
Proof.
  unfold JsonRpcRequest.new, JsonRpcRequest.__post_init__, JsonRpcRequest.set_params,
    JsonRpcRequest.set_args_and_kwargs, mbind, result_bind. simpl.
  destruct (validate_jsonrpc jsonrpc) as [[]|]; [|done].
  destruct params as [given|].
  - destruct args, kwargs; simpl; try done.
    destruct (convert_params_to_args_and_kwargs (Some given)) as [[a k]|]; [|done].
    intros [= <-]. split; [done|]. by exists (Some given), a, k.
  - destruct (parse_args_and_kwargs args kwargs) as [[[p a] k]|]; [|done].
    intros [= <-]. split; [done|]. by exists p, a, k.
Qed.

(** X1.  The version is checked first: when [validate_jsonrpc] raises,
    the constructor raises the same exception, whatever [params], [args]
    and [kwargs] are. *)
Theorem version_check_comes_first (method_name : pyval) (rid : option JsonRpcIdType)
    (jsonrpc : string) (extra_args context : list (string * pyval))
    (params : option pyval) (args kwargs : pyval) (e : exception) :
  validate_jsonrpc jsonrpc = Raise e →
  JsonRpcRequest.new method_name rid jsonrpc extra_args context params args kwargs
  = Raise e.
Proof.
  intros Hversion. unfold JsonRpcRequest.new, JsonRpcRequest.__post_init__. simpl.
  by rewrite Hversion.
Qed.

(** X2.  The conflict test is [is None], not emptiness: [params] given
    together with an [args] or a [kwargs] that is not [None], even an
    empty one, raises [InvalidParams]. *)
Theorem params_exclude_present_args (method_name : pyval) (rid : option JsonRpcIdType)
    (jsonrpc : string) (extra_args context : list (string * pyval))
    (p args kwargs : pyval) :
  validate_jsonrpc jsonrpc = Ok tt →
  args ≠ PNone ∨ kwargs ≠ PNone →
  JsonRpcRequest.new method_name rid jsonrpc extra_args context (Some p) args kwargs
  = Raise (InvalidParams "Need use params or args with kwargs.").
Proof.
  intros Hversion Hpresent.
  unfold JsonRpcRequest.new, JsonRpcRequest.__post_init__. simpl.
  rewrite Hversion. unfold mbind, result_bind.
  destruct Hpresent as [Hargs|Hkwargs].
  - by destruct args.
  - destruct kwargs; try done; by rewrite andb_false_r.
Qed.

(** X3.  A constructed request has the method name, id, version, extra
    arguments and context it was given, and its version passed the
    check: only [params], [args] and [kwargs] are rewritten. *)
Theorem constructor_keeps_fields (method_name : pyval) (rid : option JsonRpcIdType)
    (jsonrpc : string) (extra_args context : list (string * pyval))
    (params : option pyval) (args kwargs : pyval) (request : JsonRpcRequest.t) :
  JsonRpcRequest.new method_name rid jsonrpc extra_args context params args kwargs
    = Ok request →
  JsonRpcRequest.method_name request = method_name ∧
  JsonRpcRequest.id request = rid ∧
  JsonRpcRequest.jsonrpc request = jsonrpc ∧
  JsonRpcRequest.extra_args request = extra_args ∧
  JsonRpcRequest.context request = context ∧
  validate_jsonrpc (JsonRpcRequest.jsonrpc request) = Ok tt.
Proof.
  intros Hnew. apply new_Ok_inv in Hnew as (Hversion & p & a & k & -> & _).
  by repeat split.
Qed.

Lemma to_dict_is_dict (request : JsonRpcRequest.t) :
  JsonRpcRequest.to_dict request = PDict (to_dict_items request).
Proof. reflexivity. Qed.

Lemma to_dict_items_lookup (request : JsonRpcRequest.t) :
  dict_lookup "method" (to_dict_items request)
    = Some (JsonRpcRequest.method_name request) ∧
  dict_lookup "jsonrpc" (to_dict_items request)
    = Some (PStr (JsonRpcRequest.jsonrpc request)) ∧
  dict_lookup "id" (to_dict_items request) = id_to_pyval <$> JsonRpcRequest.id request ∧
  dict_lookup "params" (to_dict_items request) = JsonRpcRequest.params request.
Proof.
  unfold to_dict_items, JsonRpcRequest.to_dict.
  by destruct (JsonRpcRequest.id request) as [i|],
       (JsonRpcRequest.params request) as [p|].
Qed.

(** X4.  The wire form of a request is a dict with distinct keys: it
    always has [method] and [jsonrpc]; it has [id] exactly when the
    request has an id; it has [params] exactly when [params] is not the
    sentinel, so [params=None] is sent as null and not left out. *)
Theorem to_dict_keys (request : JsonRpcRequest.t) :
  let items := to_dict_items request in
  dict_lookup "method" items = Some (JsonRpcRequest.method_name request) ∧
  dict_lookup "jsonrpc" items = Some (PStr (JsonRpcRequest.jsonrpc request)) ∧
  dict_lookup "id" items = id_to_pyval <$> JsonRpcRequest.id request ∧
  dict_lookup "params" items = JsonRpcRequest.params request ∧
  NoDup items.*1.
Proof.
  unfold to_dict_items, JsonRpcRequest.to_dict.
  destruct (JsonRpcRequest.id request) as [i|], (JsonRpcRequest.params request) as [p|];
    simpl; repeat split; try reflexivity;
    by apply (bool_decide_unpack (NoDup (_ : list string))).
Qed.

Lemma wire_id_of_id (rid : option JsonRpcIdType) :
  wire_id (id_to_pyval <$> rid) = Some rid.
Proof. by destruct rid as [[]|]. Qed.

Lemma from_dict_of_to_dict (request : JsonRpcRequest.t)
    (extra_args context : list (string * pyval)) (args kwargs : pyval) :
  from_dict (JsonRpcRequest.to_dict request) extra_args context args kwargs
  = Some (JsonRpcRequest.new (JsonRpcRequest.method_name request)
            (JsonRpcRequest.id request) (JsonRpcRequest.jsonrpc request)
            extra_args context (JsonRpcRequest.params request) args kwargs).
Proof.
  destruct (to_dict_items_lookup request) as (Hmethod & Hversion & Hid & Hparams).
  unfold from_dict, _validate_json_request. rewrite to_dict_is_dict.
  unfold has_key. rewrite Hmethod, Hversion, Hid, Hparams, wire_id_of_id. simpl.
  unfold JsonRpcRequest.new, JsonRpcRequest.__post_init__. simpl.
  by destruct (validate_jsonrpc (JsonRpcRequest.jsonrpc request)) as [[]|].
Qed.

(** X5.  Decoding the wire form of a request constructs a request from
    its method name, id, version and params; its [args], [kwargs], extra
    arguments and context do not travel. *)
Theorem from_dict_to_dict (request : JsonRpcRequest.t)
    (extra_args context : list (string * pyval)) (args kwargs : pyval) :
  from_dict (JsonRpcRequest.to_dict request) extra_args context args kwargs
  = Some (JsonRpcRequest.new (JsonRpcRequest.method_name request)
            (JsonRpcRequest.id request) (JsonRpcRequest.jsonrpc request)
            extra_args context (JsonRpcRequest.params request) args kwargs).
Proof. apply from_dict_of_to_dict. Qed.

(** X6.  A request constructed from [params] survives the wire: encoding
    it and decoding the result with the same extra arguments and context
    gives the request back. *)
Theorem params_request_round_trip (method_name : pyval) (rid : option JsonRpcIdType)
    (jsonrpc : string) (extra_args context : list (string * pyval))
    (p : pyval) (request : JsonRpcRequest.t) :
  JsonRpcRequest.new method_name rid jsonrpc extra_args context (Some p) PNone PNone
    = Ok request →
  from_dict (JsonRpcRequest.to_dict request) extra_args context PNone PNone
  = Some (Ok request).
Proof.
  intros Hnew. rewrite from_dict_of_to_dict.
  pose proof Hnew as Hinv.
  apply new_Ok_inv in Hinv as (_ & p' & a & k & -> & _ & _ & -> & _).
  simpl. by rewrite Hnew.
Qed.

(** X7.  Data that is not a dict, or a dict without [method] or without
    [jsonrpc], makes [from_dict] raise [InvalidRequest], with the message
    of the check that failed; no request is constructed. *)
Theorem from_dict_rejects_malformed (data : pyval)
    (extra_args context : list (string * pyval)) (args kwargs : pyval) :
  is_request_shaped data = false →
  from_dict data extra_args context args kwargs
  = Some (Raise (InvalidRequest
            match data with
            | PDict _ => must_contain_message
            | _ => "A request must be of the dict type."
            end)).
Proof.
  intros Hshape. unfold from_dict, _validate_json_request.
  destruct data as [| | | |items|items]; try reflexivity.
  simpl in Hshape. by rewrite Hshape.
Qed.

Lemma from_dicts_app_Ok (before after : list pyval) (requests : list JsonRpcRequest.t)
    (extra_args context : list (string * pyval)) (args kwargs : pyval) :
  from_dicts before extra_args context args kwargs = Some (Ok requests) →
  from_dicts (before ++ after) extra_args context args kwargs =
  match from_dicts after extra_args context args kwargs with
  | None => None
  | Some (Raise e) => Some (Raise e)
  | Some (Ok rest) => Some (Ok (requests ++ rest))
  end.
Proof.
  revert requests. induction before as [|item before IH]; intros requests; simpl.
  - intros [= <-]. by destruct (from_dicts after _ _ _ _) as [[]|].
  - destruct (from_dict item _ _ _ _) as [[request|]|]; try done.
    destruct (from_dicts before _ _ _ _) as [[requests'|]|]; try done.
    intros [= <-]. rewrite (IH requests') by done.
    by destruct (from_dicts after _ _ _ _) as [[]|].
Qed.

(** X8.  A batch whose requests each survive the wire survives it as a
    whole, the empty batch included: [from_list] of [to_list] gives the
    batch request back. *)
Theorem batch_request_round_trip (batch_request : JsonRpcBatchRequest.t)
    (extra_args context : list (string * pyval)) (args kwargs : pyval) :
  Forall (fun request =>
            from_dict (JsonRpcRequest.to_dict request) extra_args context args kwargs
            = Some (Ok request))
    (JsonRpcBatchRequest.requests batch_request) →
  from_list_of_requests (JsonRpcBatchRequest.to_list batch_request)
    extra_args context args kwargs
  = Some (Ok batch_request).
Proof.
  destruct batch_request as [requests]. simpl.
  unfold from_list_of_requests, JsonRpcBatchRequest.to_list. simpl.
  intros Hall.
  assert (from_dicts (map JsonRpcRequest.to_dict requests) extra_args context args kwargs
          = Some (Ok requests)) as ->; [|done].
  induction Hall as [|request rest Hrequest _ IH]; [done|].
  simpl. by rewrite Hrequest, IH.
Qed.

(** X9.  The first item that fails ends [from_list]: when the items
    before it decode, the exception of that item is the exception of the
    whole list, whatever follows. *)
Theorem from_list_first_failure (before after : list pyval) (bad : pyval)
    (requests : list JsonRpcRequest.t) (e : exception)
    (extra_args context : list (string * pyval)) (args kwargs : pyval) :
  from_dicts before extra_args context args kwargs = Some (Ok requests) →
  from_dict bad extra_args context args kwargs = Some (Raise e) →
  from_list_of_requests (PList (before ++ bad :: after))
    extra_args context args kwargs
  = Some (Raise e).
Proof.
  intros Hbefore Hbad. unfold from_list_of_requests.
  rewrite (from_dicts_app_Ok _ _ _ _ _ _ _ Hbefore). simpl. by rewrite Hbad.
Qed.

End request_model.

(** * More of batch correlation *)

Section more_correlation.
Implicit Types (r response : JsonRpcResponse.t) (request : JsonRpcRequest.t).
Implicit Types (k : JsonRpcIdType).

Lemma unlinked_values_some (responses : list JsonRpcResponse.t) :
  Exists (fun r => JsonRpcResponse.id r = None) responses →
  unlinked_values responses ≠ [].
Proof.
  induction 1 as [r rest Hr | r rest _ IH]; unfold unlinked_values in *;
    rewrite filter_cons; case_decide; simpl; congruence.
Qed.

Lemma fallback_unlinked (responses : list JsonRpcResponse.t) :
  unlinked_values responses ≠ [] →
  fallback responses = UnlinkedResults (unlinked_values responses).
Proof. unfold fallback, py_or. simpl. by destruct (unlinked_values responses). Qed.

Lemma values_for_unique k (responses : list JsonRpcResponse.t) (i : nat) r :
  NoDup (JsonRpcResponse.id <$> responses) →
  responses !! i = Some r →
  JsonRpcResponse.id r = Some k →
  values_for k responses = [response_value r].
Proof.
  intros Hnodup Hi Hk.
  rewrite <- (take_drop_middle responses i r Hi) in Hnodup |- *.
  rewrite fmap_app, fmap_cons, Hk in Hnodup.
  apply NoDup_app in Hnodup as (_ & Hbefore & Hafter).
  apply NoDup_cons in Hafter as [Hafter _].
  rewrite values_for_app. change (r :: drop (S i) responses)
    with ([r] ++ drop (S i) responses). rewrite values_for_app.
  rewrite (values_for_none k (take i responses)), (values_for_none k (drop _ _)).
  - unfold values_for. by rewrite filter_cons, decide_True.
  - apply Forall_forall. intros r' Hin Hr'. apply Hafter.
    rewrite <- Hr'. by apply list_elem_of_fmap_2.
  - apply Forall_forall. intros r' Hin Hr'.
    apply (Hbefore (Some k)); [|set_solver].
    rewrite <- Hr'. by apply list_elem_of_fmap_2.
Qed.

(** The requests answered in order, each once: correlation returns the
    values of the answers. *)
Lemma collect_in_order (requests : list JsonRpcRequest.t)
    (in_order : list JsonRpcResponse.t) :
  Forall2 answers requests in_order →
  NoDup (JsonRpcResponse.id <$> in_order) →
  _collect_batch_result (JsonRpcBatchRequest.mk requests)
    (JsonRpcBatchResponse.mk in_order)
  = Ok (response_value <$> in_order).
Proof.
  intros Hanswers Hnodup.
  rewrite _collect_batch_result_resolved. simpl. f_equal.
  apply list_eq. intros i. rewrite !list_lookup_fmap.
  destruct (requests !! i) as [request|] eqn:Hi; simpl.
  - destruct (Forall2_lookup_l _ _ _ _ _ Hanswers Hi) as (r & Hr & Hid & Hsome).
    rewrite Hr. simpl. f_equal. unfold resolved. rewrite Hid.
    destruct (JsonRpcResponse.id r) as [k|] eqn:Hk; [|done].
    by rewrite (values_for_unique k in_order i r).
  - apply lookup_ge_None in Hi. rewrite (Forall2_length _ _ _ Hanswers) in Hi.
    apply lookup_ge_None in Hi. by rewrite Hi.
Qed.

(** X10.  When the server answers every request exactly once, in any
    order, the result lists the values of the answers in the order of
    the requests: it is what [save_order=False] returns for a server that
    keeps the order. *)
Theorem answers_come_back_in_request_order (requests : list JsonRpcRequest.t)
    (in_order responses : list JsonRpcResponse.t) :
  Forall2 answers requests in_order →
  NoDup (JsonRpcResponse.id <$> in_order) →
  responses ≡ₚ in_order →
  _collect_batch_result (JsonRpcBatchRequest.mk requests)
    (JsonRpcBatchResponse.mk responses)
  = Ok (response_value <$> in_order).
Proof.
  intros Hanswers Hnodup Hperm.
  rewrite <- (_collect_batch_result_permutation _ in_order responses) by done.
  by apply collect_in_order.
Qed.

(** X11.  When no id occurs twice among the responses, and at most one
    response has none, the order of the responses does not matter: any
    permutation of them correlates to the same result. *)
Theorem response_order_is_irrelevant (batch_request : JsonRpcBatchRequest.t)
    (responses responses' : list JsonRpcResponse.t) :
  responses ≡ₚ responses' →
  NoDup (JsonRpcResponse.id <$> responses) →
  _collect_batch_result batch_request (JsonRpcBatchResponse.mk responses)
  = _collect_batch_result batch_request (JsonRpcBatchResponse.mk responses').
Proof.
  intros Hperm Hnodup. by apply _collect_batch_result_permutation.
Qed.

(** X12.  Responses whose id is the id of no request never reach the
    result: dropping them from the batch response changes nothing. *)
Theorem unrelated_responses_are_ignored (requests : list JsonRpcRequest.t)
    (responses : list JsonRpcResponse.t) :
  _collect_batch_result (JsonRpcBatchRequest.mk requests)
    (JsonRpcBatchResponse.mk responses)
  = _collect_batch_result (JsonRpcBatchRequest.mk requests)
      (JsonRpcBatchResponse.mk (filter (relevant requests) responses)).
Proof.
  rewrite !_collect_batch_result_resolved. simpl. f_equal.
  apply list_fmap_ext. intros i request Hi.
  assert (unlinked_values (filter (relevant requests) responses)
          = unlinked_values responses) as Hunlinked.
  { unfold unlinked_values. f_equal. rewrite list_filter_filter.
    apply list_filter_iff. intros r. unfold relevant.
    split; [by intros [Hr _] | intros Hr; split; [done | by left]]. }
  unfold resolved, fallback. rewrite Hunlinked.
  destruct (JsonRpcRequest.id request) as [k|] eqn:Hk; [|done].
  assert (values_for k (filter (relevant requests) responses)
          = values_for k responses) as ->; [|done].
  unfold values_for. f_equal. rewrite list_filter_filter.
  apply list_filter_iff. intros r. unfold relevant. split; [by intros [Hr _]|].
  intros Hr. split; [done|]. right. rewrite Hr, <- Hk.
  apply list_elem_of_fmap_2. by eapply list_elem_of_lookup_2.
Qed.

(** X13.  With no response at all, every entry of the result is [None]. *)
Theorem no_response_resolves_to_None (requests : list JsonRpcRequest.t) :
  _collect_batch_result (JsonRpcBatchRequest.mk requests) (JsonRpcBatchResponse.mk [])
  = Ok (replicate (length requests) py_None).
Proof.
  rewrite _collect_batch_result_resolved. simpl. f_equal.
  induction requests as [|request rest IH]; [done|].
  rewrite fmap_cons, IH. cbn [length replicate]. f_equal. unfold resolved.
  by destruct (JsonRpcRequest.id request).
Qed.

(** X14.  When a response without id is present, every notification and
    every request whose id no response carries gets the same entry: the
    [UnlinkedResults] of all the values without id, in the order of the
    responses. *)
Theorem unlinked_results_are_shared (batch_request : JsonRpcBatchRequest.t)
    (batch_response : JsonRpcBatchResponse.t) (i : nat) (request : JsonRpcRequest.t) :
  let responses := JsonRpcBatchResponse.responses batch_response in
  JsonRpcBatchRequest.requests batch_request !! i = Some request →
  Forall (fun r => JsonRpcResponse.id r = None ∨
                   JsonRpcResponse.id r ≠ JsonRpcRequest.id request) responses →
  Exists (fun r => JsonRpcResponse.id r = None) responses →
  ∃ res : list pyobj,
    _collect_batch_result batch_request batch_response = Ok res ∧
    res !! i = Some (UnlinkedResults (unlinked_values responses)).
Proof.
  intros responses Hi Hnone Hunlinked.
  eexists. split; [apply _collect_batch_result_resolved|].
  fold responses. rewrite list_lookup_fmap, Hi. simpl. f_equal.
  rewrite <- (fallback_unlinked responses) by by apply unlinked_values_some.
  unfold resolved. destruct (JsonRpcRequest.id request) as [k|]; [|done].
  rewrite values_for_none; [done|].
  eapply Forall_impl; [exact Hnone|]. simpl. intros r [Hr|Hr]; congruence.
Qed.

(** X15.  The entry of a request depends on its id only: two requests of
    a batch with the same id, or two notifications, get equal entries. *)
Theorem same_id_same_entry (batch_request : JsonRpcBatchRequest.t)
    (batch_response : JsonRpcBatchResponse.t) (i j : nat)
    (request request' : JsonRpcRequest.t) :
  JsonRpcBatchRequest.requests batch_request !! i = Some request →
  JsonRpcBatchRequest.requests batch_request !! j = Some request' →
  JsonRpcRequest.id request = JsonRpcRequest.id request' →
  ∃ res : list pyobj,
    _collect_batch_result batch_request batch_response = Ok res ∧
    res !! i = res !! j.
Proof.
  intros Hi Hj Hid.
  eexists. split; [apply _collect_batch_result_resolved|].
  rewrite !list_lookup_fmap, Hi, Hj. simpl. f_equal.
  unfold resolved. by rewrite Hid.
Qed.

Lemma values_for_subseteq k (responses : list JsonRpcResponse.t) :
  values_for k responses ⊆ response_value <$> responses.
Proof.
  intros v. unfold values_for. rewrite !list_elem_of_fmap.
  intros (r & -> & Hr). apply list_elem_of_filter in Hr as [_ Hr]. eauto.
Qed.

Lemma unlinked_values_subseteq (responses : list JsonRpcResponse.t) :
  unlinked_values responses ⊆ response_value <$> responses.
Proof.
  intros v. unfold unlinked_values. rewrite !list_elem_of_fmap.
  intros (r & -> & Hr). apply list_elem_of_filter in Hr as [_ Hr]. eauto.
Qed.

Lemma fallback_made_of (responses : list JsonRpcResponse.t) :
  made_of (response_value <$> responses) (fallback responses).
Proof.
  unfold fallback, py_or. simpl.
  destruct (unlinked_values responses) as [|v rest] eqn:Hu; simpl.
  - by left.
  - right. right. exists (v :: rest). split; [by right|].
    rewrite <- Hu. apply unlinked_values_subseteq.
Qed.

(** X16.  Correlation invents nothing: every entry of the result is
    [None], the value of a response, or a [DuplicatedResults] or an
    [UnlinkedResults] that holds values of responses only. *)
Theorem entries_come_from_responses (batch_request : JsonRpcBatchRequest.t)
    (batch_response : JsonRpcBatchResponse.t) :
  ∃ res : list pyobj,
    _collect_batch_result batch_request batch_response = Ok res ∧
    Forall (made_of (response_value <$> JsonRpcBatchResponse.responses batch_response))
      res.
Proof.
  eexists. split; [apply _collect_batch_result_resolved|].
  apply Forall_fmap, Forall_forall. intros request _. simpl.
  set (responses := JsonRpcBatchResponse.responses batch_response).
  unfold resolved. destruct (JsonRpcRequest.id request) as [k|];
    [|apply fallback_made_of].
  pose proof (values_for_subseteq k responses) as Hsub.
  destruct (values_for k responses) as [|v [|v' rest]] eqn:Hv; simpl.
  - apply fallback_made_of.
  - right. left. apply Hsub. set_solver.
  - right. right. eexists. split; [by left|]. exact Hsub.
Qed.

End more_correlation.

(** * More of the client *)

Section more_client.
Context `{Utils} {W : Type} `{Client W}.

Lemma direct_batch_Ok_inv (batch_request : JsonRpcBatchRequest.t) (w w' : W)
    (o : option JsonRpcBatchResponse.t) :
  direct_batch batch_request w = (Ok o, w') →
  JsonRpcBatchRequest.requests batch_request ≠ [] ∧
  ∃ payload context,
    send_json (JsonRpcBatchRequest.to_list batch_request)
      (JsonRpcBatchRequest.is_notification batch_request) w
      = (Ok (payload, context), w') ∧
    match o with
    | None => JsonRpcBatchRequest.is_notification batch_request = true
    | Some batch_response =>
        JsonRpcBatchRequest.is_notification batch_request = false ∧
        py_truthy payload = true ∧
        from_list payload = Ok batch_response
    end.
Proof.
  unfold direct_batch.
  destruct (JsonRpcBatchRequest.requests batch_request) as [|request rest]; [done|].
  unfold mbind, M_bind.
  destruct (send_json _ _ w) as [[[payload context]|e] w1] eqn:Hsend; [|done].
  destruct (JsonRpcBatchRequest.is_notification batch_request) eqn:Hnotif.
  - intros [= <- <-]. split; [done|]. by exists payload, context.
  - destruct (py_truthy payload) eqn:Htruthy; simpl; [|done].
    unfold lift. destruct (from_list payload) as [batch_response|e] eqn:Hparse; [|done].
    intros [= <- <-]. split; [done|]. by exists payload, context.
Qed.

(** X17.  A batch of notifications only is sent with
    [without_response=True] and [direct_batch] returns [None]: what the
    transport hands back is neither tested nor parsed. *)
Theorem direct_batch_of_notifications (batch_request : JsonRpcBatchRequest.t)
    (w w' : W) (payload : pyval) (context : option (list (string * pyval))) :
  JsonRpcBatchRequest.requests batch_request ≠ [] →
  JsonRpcBatchRequest.is_notification batch_request = true →
  send_json (JsonRpcBatchRequest.to_list batch_request) true w
    = (Ok (payload, context), w') →
  direct_batch batch_request w = (Ok None, w').
Proof.
  intros Hne Hnotif Hsend. unfold direct_batch.
  destruct (JsonRpcBatchRequest.requests batch_request); [done|].
  rewrite Hnotif. by erewrite bind_Ok by exact Hsend.
Qed.

(** X18.  When a batch with at least one call gets an empty payload back
    ([None], an empty list, ...), [direct_batch] raises [ParseError]
    without parsing it. *)
Theorem direct_batch_empty_response (batch_request : JsonRpcBatchRequest.t)
    (w w' : W) (payload : pyval) (context : option (list (string * pyval))) :
  JsonRpcBatchRequest.requests batch_request ≠ [] →
  JsonRpcBatchRequest.is_notification batch_request = false →
  send_json (JsonRpcBatchRequest.to_list batch_request) false w
    = (Ok (payload, context), w') →
  py_truthy payload = false →
  direct_batch batch_request w
  = (Raise (ParseError "Server returned an empty batch response."), w').
Proof.
  intros Hne Hnotif Hsend Hempty. unfold direct_batch.
  destruct (JsonRpcBatchRequest.requests batch_request); [done|].
  rewrite Hnotif. erewrite bind_Ok by exact Hsend.
  cbv beta iota. by rewrite Hempty.
Qed.

(** X19.  [batch] on a pre-built batch request of notifications only
    sends it and then fails its assertion: the notifications are
    delivered, the caller gets an [AssertionError]. *)
Theorem batch_of_notifications_fails_assertion (batch_request : JsonRpcBatchRequest.t)
    (save_order : bool) (w w' : W) (payload : pyval)
    (context : option (list (string * pyval))) :
  JsonRpcBatchRequest.requests batch_request ≠ [] →
  JsonRpcBatchRequest.is_notification batch_request = true →
  send_json (JsonRpcBatchRequest.to_list batch_request) true w
    = (Ok (payload, context), w') →
  batch (DescBatch batch_request) save_order w = (Raise AssertionError, w').
Proof.
  intros Hne Hnotif Hsend.
  assert (direct_batch batch_request w = (Ok None, w')) as Hdirect.
  { unfold direct_batch.
    destruct (JsonRpcBatchRequest.requests batch_request); [done|].
    rewrite Hnotif. by erewrite bind_Ok by exact Hsend. }
  unfold batch. erewrite bind_Ok by reflexivity.
  by erewrite bind_Ok by exact Hdirect.
Qed.

(** X20.  With [save_order=False], [batch] returns the value of every
    response in the order of the payload; when the server answered every
    request once and in order, [save_order=True] returns the same list. *)
Theorem batch_modes_agree_on_ordered_answers (batch_request : JsonRpcBatchRequest.t)
    (batch_response : JsonRpcBatchResponse.t) (w w' : W) :
  direct_batch batch_request w = (Ok (Some batch_response), w') →
  batch (DescBatch batch_request) false w
    = (Ok (map response_value (JsonRpcBatchResponse.responses batch_response)), w') ∧
  (Forall2 answers (JsonRpcBatchRequest.requests batch_request)
     (JsonRpcBatchResponse.responses batch_response) →
   NoDup (JsonRpcResponse.id <$> JsonRpcBatchResponse.responses batch_response) →
   batch (DescBatch batch_request) true w = batch (DescBatch batch_request) false w).
Proof.
  intros Hdirect.
  assert (∀ save_order,
            batch (DescBatch batch_request) save_order w =
            (if save_order
             then lift (_collect_batch_result batch_request batch_response)
             else mret (map response_value
                          (JsonRpcBatchResponse.responses batch_response))) w')
    as Hbatch.
  { intros save_order. unfold batch. erewrite bind_Ok by reflexivity.
    by erewrite bind_Ok by exact Hdirect. }
  split; [by rewrite Hbatch|].
  intros Hanswers Hnodup. rewrite !Hbatch. unfold lift.
  destruct batch_request as [requests], batch_response as [responses].
  simpl in *. by rewrite (collect_in_order requests responses).
Qed.

Lemma _parse_method_description_notification_world (d : MethodDescriptionType) (w : W) :
  (_parse_method_description d true w).2 = w.
Proof.
  destruct d as [name|items|given]; [done| |done].
  by destruct items as [|? [|? [|? [|? ?]]]].
Qed.

Lemma comprehension_world {A B} (f : A → M W B) (items : list A) (w : W) :
  (∀ x w0, (f x w0).2 = w0) →
  (comprehension f items w).2 = w.
Proof.
  intros Hf. induction items as [|x rest IH]; [done|].
  simpl. unfold mbind, M_bind.
  pose proof (Hf x w) as Hx. destruct (f x w) as [[y|e] w1]; simpl in Hx; subst w1; [|done].
  destruct (comprehension f rest w) as [[ys|e] w2]; simpl in IH; by subst w2.
Qed.

(** X21.  Building the batch request of [batch_notify] draws no id and
    leaves the world as it was, whether it succeeds or raises. *)
Theorem notification_batch_draws_no_id (method_descriptions : MethodDescriptionsType)
    (w : W) :
  (make_batch_request method_descriptions true w).2 = w.
Proof.
  destruct method_descriptions as [items|batch_request]; [|done].
  unfold make_batch_request, mbind, M_bind.
  pose proof (comprehension_world
                (fun d => _parse_method_description d true) items w
                _parse_method_description_notification_world) as Hworld.
  destruct (comprehension _ items w) as [[requests|e] w1]; simpl in Hworld;
    by subst w1.
Qed.

Lemma _parse_method_description_call (d : MethodDescriptionType)
    (request : JsonRpcRequest.t) (w w' : W) :
  _parse_method_description d false w = (Ok request, w') →
  called_or_given d request.
Proof.
  assert (∀ method_name i params args kwargs w1,
            lift (JsonRpcRequest.new method_name (Some i) VERSION_2_0 [] []
                    params args kwargs) w1 = (Ok request, w') →
            JsonRpcRequest.is_notification request = false) as Hnew.
  { intros ? i ? ? ? w1 Hlift. apply lift_new_keeps_id in Hlift.
    unfold JsonRpcRequest.is_notification. by rewrite Hlift. }
  destruct d as [name|items|given]; simpl.
  - unfold mbind, M_bind, new_request_id.
    destruct (get_random_id w) as [i w1]. apply Hnew.
  - unfold mbind, M_bind, new_request_id.
    destruct (get_random_id w) as [i w1].
    destruct items as [|? [|? [|? [|? ?]]]]; try discriminate; apply Hnew.
  - by intros [= <- _].
Qed.

(** X22.  In the batch request [batch] builds from a list of
    descriptions, every shorthand description has become a request with
    an id.  So with at least one shorthand description the batch is not a
    notification batch, [direct_batch] never returns [None] for it, and
    the assertion of [batch] cannot fail. *)
Theorem batch_over_shorthand_expects_a_response (items : list MethodDescriptionType)
    (w w1 : W) (batch_request : JsonRpcBatchRequest.t) :
  make_batch_request (Descriptions items) false w = (Ok batch_request, w1) →
  Forall2 called_or_given items (JsonRpcBatchRequest.requests batch_request) ∧
  (Exists (fun d => is_shorthand d = true) items →
   JsonRpcBatchRequest.is_notification batch_request = false ∧
   ∀ o w2, direct_batch batch_request w1 = (Ok o, w2) → is_Some o).
Proof.
  intros Hmake.
  assert (Forall2 called_or_given items (JsonRpcBatchRequest.requests batch_request))
    as Hall.
  { revert Hmake. unfold make_batch_request, mbind, M_bind.
    destruct (comprehension _ items w) as [[requests|e] w0] eqn:Hitems; [|done].
    unfold lift, JsonRpcBatchRequest.new. intros [= <- _]. simpl.
    eapply comprehension_Forall2; [|exact Hitems].
    intros d request w2 w3. apply _parse_method_description_call. }
  split; [exact Hall|]. intros Hshort.
  assert (JsonRpcBatchRequest.is_notification batch_request = false) as Hnotif.
  { unfold JsonRpcBatchRequest.is_notification.
    apply not_true_is_false. intros Hforall.
    rewrite forallb_forall in Hforall.
    apply Exists_exists in Hshort as (d & Hd & Hshorthand).
    apply list_elem_of_lookup in Hd as [i Hi].
    destruct (Forall2_lookup_l _ _ _ _ _ Hall Hi) as (request & Hrequest & Hcalled).
    assert (JsonRpcRequest.is_notification request = true) as Htrue.
    { apply Hforall. apply list_elem_of_In. by eapply list_elem_of_lookup_2. }
    destruct d; simpl in *; congruence. }
  split; [exact Hnotif|]. intros o w2 Hdirect.
  apply direct_batch_Ok_inv in Hdirect as (_ & payload & context & _ & Ho).
  destruct o; [eauto|congruence].
Qed.

Lemma _parse_method_description_malformed (d : MethodDescriptionType)
    (is_notification : bool) (w : W) :
  malformed d → ∃ e w', _parse_method_description d is_notification w = (Raise e, w').
Proof.
  intros [Hshort Hshape]. destruct d as [name|items|request]; try discriminate.
  unfold _parse_method_description, new_request_id, mbind, M_bind, raise.
  destruct is_notification; [|destruct (get_random_id w) as [i w1]];
    destruct items as [|? [|? [|? [|? ?]]]]; try discriminate; eauto.
Qed.

(** X23.  One malformed description anywhere in the list spoils the
    batch: no batch request is built, [batch] raises the exception of the
    construction and nothing is handed to the transport. *)
Theorem malformed_description_spoils_the_batch (items : list MethodDescriptionType)
    (save_order : bool) (w : W) :
  Exists malformed items →
  ∃ e w',
    make_batch_request (Descriptions items) false w = (Raise e, w') ∧
    batch (Descriptions items) save_order w = (Raise e, w').
Proof.
  intros Hbad.
  assert (∃ e w', comprehension (fun d => _parse_method_description d false) items w
                  = (Raise e, w')) as (e & w' & Hitems).
  { revert w. induction Hbad as [d rest Hd | d rest _ IH]; intros w; simpl.
    - destruct (_parse_method_description_malformed d false w Hd) as (e & w' & Hparse).
      exists e, w'. by erewrite bind_Raise by exact Hparse.
    - destruct (_parse_method_description d false w) as [[request|e] w1] eqn:Hparse.
      + destruct (IH w1) as (e & w' & Hrest). exists e, w'.
        erewrite bind_Ok by exact Hparse. by erewrite bind_Raise by exact Hrest.
      + exists e, w1. by erewrite bind_Raise by exact Hparse. }
  assert (make_batch_request (Descriptions items) false w = (Raise e, w')) as Hmake.
  { unfold make_batch_request. by erewrite bind_Raise by exact Hitems. }
  exists e, w'. split; [exact Hmake|].
  unfold batch. by erewrite bind_Raise by exact Hmake.
Qed.

End more_client.

(** * Single calls *)

Section more_calls.
Context `{Utils} {W : Type} `{Client W} `{ResponseParser}.

(** X24.  [direct_call] returns a response exactly for a request with an
    id: a notification is sent with [without_response=True] and yields
    [None], whatever the transport hands back. *)
Theorem direct_call_response_iff_id (request : JsonRpcRequest.t) (w w' : W)
    (o : option JsonRpcResponse.t) :
  direct_call request w = (Ok o, w') →
  (is_Some o ↔ is_Some (JsonRpcRequest.id request)) ∧
  ∃ payload context,
    send_json (JsonRpcRequest.to_dict request)
      (bool_decide (JsonRpcRequest.id request = None)) w
    = (Ok (payload, context), w').
Proof.
  unfold direct_call, JsonRpcRequest.is_notification, mbind, M_bind.
  destruct (send_json _ _ w) as [[[payload context]|e] w1] eqn:Hsend; [|done].
  destruct (JsonRpcRequest.id request) as [i|] eqn:Hid.
  - rewrite bool_decide_eq_false_2 by done.
    rewrite bool_decide_eq_false_2 in Hsend by done.
    unfold lift. destruct (JsonRpcResponse_from_dict payload context); [|done].
    intros [= <- <-]. split; [split; eauto|]. by exists payload, context.
  - rewrite bool_decide_eq_true_2 by done.
    rewrite bool_decide_eq_true_2 in Hsend by done.
    intros [= <- <-]. split; [|by exists payload, context].
    split; intros [? ?]; discriminate.
Qed.

(** X25.  [call] draws an id, sends the request with that id in its
    [id] key and expects a response; once the response is parsed, its
    error, when it has one, is raised, and otherwise its result is
    returned.  The assertion in between does not fail. *)
Theorem call_returns_result_or_raises_error (method_name : string)
    (args : list pyval) (kwargs : list (string * pyval))
    (w w1 w2 : W) (i : JsonRpcIdType) (request : JsonRpcRequest.t)
    (payload : pyval) (context : option (list (string * pyval)))
    (response : JsonRpcResponse.t) :
  get_random_id w = (i, w1) →
  JsonRpcRequest.new (PStr method_name) (Some i) VERSION_2_0 [] [] None
    (PList args) (PDict kwargs) = Ok request →
  send_json (JsonRpcRequest.to_dict request) false w1 = (Ok (payload, context), w2) →
  JsonRpcResponse_from_dict payload context = Ok response →
  dict_lookup "id" (to_dict_items request) = Some (id_to_pyval i) ∧
  call method_name args kwargs w
  = (Ok match JsonRpcResponse.error response with
        | Some error => RaisedError error
        | None => Returned (JsonRpcResponse.result response)
        end, w2).
Proof.
  intros Hid Hnew Hsend Hparse.
  pose proof Hnew as Hinv.
  apply new_Ok_inv in Hinv as (_ & p & a & k & -> & _).
  split; [by destruct p|].
  match type of Hsend with send_json (JsonRpcRequest.to_dict ?r) _ _ = _ =>
    assert (direct_call r w1 = (Ok (Some response), w2)) as Hdirect
  end.
  { unfold direct_call, JsonRpcRequest.is_notification. simpl.
    erewrite bind_Ok by exact Hsend. cbv beta iota.
    assert (lift (JsonRpcResponse_from_dict payload context) w2 = (Ok response, w2))
      as Hlift by (unfold lift; by rewrite Hparse).
    by erewrite bind_Ok by exact Hlift. }
  unfold call.
  erewrite bind_Ok by (by rewrite Hid).
  erewrite bind_Ok by (unfold lift; by rewrite Hnew).
  erewrite bind_Ok by exact Hdirect.
  cbv beta iota. by destruct (JsonRpcResponse.error response).
Qed.

(** X26.  [notify] draws no id: it sends a request without [id] key with
    [without_response=True] and returns, without parsing what the
    transport hands back. *)
Theorem notify_sends_without_id (method_name : string)
    (args : list pyval) (kwargs : list (string * pyval))
    (w w' : W) (request : JsonRpcRequest.t)
    (payload : pyval) (context : option (list (string * pyval))) :
  JsonRpcRequest.new (PStr method_name) None VERSION_2_0 [] [] None
    (PList args) (PDict kwargs) = Ok request →
  send_json (JsonRpcRequest.to_dict request) true w = (Ok (payload, context), w') →
  dict_lookup "id" (to_dict_items request) = None ∧
  notify method_name args kwargs w = (Ok tt, w').
Proof.
  intros Hnew Hsend.
  pose proof Hnew as Hinv.
  apply new_Ok_inv in Hinv as (_ & p & a & k & -> & _).
  split; [by destruct p|].
  match type of Hsend with send_json (JsonRpcRequest.to_dict ?r) _ _ = _ =>
    assert (direct_call r w = (Ok None, w')) as Hdirect
  end.
  { unfold direct_call, JsonRpcRequest.is_notification. simpl.
    by erewrite bind_Ok by exact Hsend. }
  unfold notify.
  erewrite bind_Ok by (unfold lift; by rewrite Hnew).
  by erewrite bind_Ok by exact Hdirect.
Qed.

End more_calls.

(** * The theorems on concrete inputs *)

#[local] Existing Instance Reference.utils.
#[local] Existing Instance Reference.client.

(** The three requests are what the constructor builds. *)
Lemma request_A_constructed :
  JsonRpcRequest.new (PStr "A") (Some (IdInt 1)) VERSION_2_0 [] [] None PNone PNone
  = Ok Examples.request_A.
Proof. reflexivity. Qed.

Lemma request_B_constructed :
  JsonRpcRequest.new (PStr "B") None VERSION_2_0 [] [] None PNone PNone = Ok Examples.request_B.
Proof. reflexivity. Qed.


Lemma batch_correlation_follows_requests_witness :
  _collect_batch_result
    (JsonRpcBatchRequest.mk [Examples.request_A; Examples.request_B; Examples.request_C])
    (JsonRpcBatchResponse.mk [response_with (Some (IdInt 2)) (PStr "c");
                       response_with (Some (IdInt 1)) (PStr "a")])
    = Ok [Value (PStr "a"); py_None; Value (PStr "c")] ∧
  batch (DescBatch (JsonRpcBatchRequest.mk
           [Examples.request_A; Examples.request_B; Examples.request_C]))
    true Examples.world_0
    = (Ok [Value (PStr "a"); py_None; Value (PStr "c")],
       Reference.mkWorld 100 []
         [JsonRpcBatchRequest.to_list (JsonRpcBatchRequest.mk
            [Examples.request_A; Examples.request_B; Examples.request_C])]).
Proof.
  apply (batch_correlation_follows_requests
           Examples.request_A Examples.request_B Examples.request_C
           Examples.world_0 _ Examples.answer_c_a None);
    reflexivity.
Defined.

Lemma duplicate_ids_are_kept_together_witness :
  _collect_batch_result (JsonRpcBatchRequest.mk [Examples.request_A])
    (JsonRpcBatchResponse.mk [response_with (Some (IdInt 1)) (PStr "x");
                       response_with (Some (IdInt 1)) (PStr "y")])
  = Ok [DuplicatedResults [Value (PStr "x"); Value (PStr "y")]].
Proof. apply (duplicate_ids_are_kept_together Examples.request_A). reflexivity. Defined.

(** The example of C7: an orphan response before the response of A. *)
Lemma exact_id_match_wins_witness :
  ∃ res : list pyobj,
    _collect_batch_result (JsonRpcBatchRequest.mk [Examples.request_A])
      (JsonRpcBatchResponse.mk [response_with None (PStr "orphan");
                         response_with (Some (IdInt 1)) (PStr "a")]) = Ok res ∧
    res !! 0%nat = Some (Value (PStr "a")).
Proof.
  destruct (exact_id_match_wins (JsonRpcBatchRequest.mk [Examples.request_A])
              (JsonRpcBatchResponse.mk [response_with None (PStr "orphan");
                                 response_with (Some (IdInt 1)) (PStr "a")])
              0%nat Examples.request_A (IdInt 1) eq_refl eq_refl)
    as (res & Hres & Hunique & _).
  exists res. split; [exact Hres|].
  apply (Hunique [response_with None (PStr "orphan")]
           (response_with (Some (IdInt 1)) (PStr "a")) []); [reflexivity..|].
  repeat constructor; discriminate.
Defined.


(** C8 on a concrete call: [params=[1]] together with [args=[2]]. *)
Lemma params_exclude_args_and_kwargs_witness :
  JsonRpcRequest.new (PStr "subtract") (Some (IdInt 7)) VERSION_2_0 [] []
    (Some (PList [PInt 1])) (PList [PInt 2]) PNone
  = Raise (InvalidParams "Need use params or args with kwargs.").
Proof.
  assert (validate_jsonrpc VERSION_2_0 = Ok tt) as Hvalid by reflexivity.
  destruct (params_exclude_args_and_kwargs (PStr "subtract") (Some (IdInt 7))
              VERSION_2_0 [] [] (PList [PInt 2]) PNone Hvalid) as (Hboth & _ & _).
  apply Hboth. left. reflexivity.
Defined.

(** C9 on concrete descriptions: an empty sequence, and four items. *)
Lemma malformed_description_raises_witness :
  (_parse_method_description (DescSeq []) false Examples.world_0).1
  = Raise (InvalidParams "Use string or list (length less than or equal to 3).").
Proof.
  apply (malformed_description_raises (DescSeq []) false Examples.world_0);
    reflexivity.
Defined.

Lemma four_items_raise :
  (_parse_method_description
     (DescSeq [PStr "sum"; PList [PInt 1]; PDict []; PNone]) true Examples.world_0).1
  = Raise (InvalidParams "Use string or list (length less than or equal to 3).").
Proof. reflexivity. Qed.

(** C4: the constructor accepts an empty sequence of requests, and
    parsing an empty list of descriptions builds such a batch request. *)
Lemma empty_batch_request_is_constructed :
  JsonRpcBatchRequest.new [] = Ok (JsonRpcBatchRequest.mk []) ∧
  make_batch_request (Descriptions []) false Examples.world_0
    = (Ok (JsonRpcBatchRequest.mk []), Examples.world_0).
Proof. split; reflexivity. Qed.

(** C5: [batch_notify] on a pre-built request with id 1 builds a batch
    request whose only request is not a notification, and sends its id. *)
Lemma batch_notify_keeps_prebuilt_id :
  make_batch_request (Descriptions [DescRequest Examples.request_A]) true
    Examples.world_0
    = (Ok (JsonRpcBatchRequest.mk [Examples.request_A]), Examples.world_0) ∧
  forallb JsonRpcRequest.is_notification [Examples.request_A] = false ∧
  Reference.sent
    (batch_notify (Descriptions [DescRequest Examples.request_A]) Examples.world_0).2
    = [PList [PDict [("method", PStr "A"); ("jsonrpc", PStr "2.0"); ("id", PInt 1)]]].
Proof. repeat split. Qed.

(** C5, amended, on a list that mixes the shapes. *)
Lemma batch_notify_forces_shorthand_witness :
  Forall2 forced_or_given
    [DescStr "ping"; DescRequest Examples.request_A;
     DescSeq [PStr "sum"; PList [PInt 1; PInt 2]]]
    [JsonRpcRequest.mk (PStr "ping") None VERSION_2_0 [] [] None (PList []) (PDict []);
     Examples.request_A;
     JsonRpcRequest.mk (PStr "sum") None VERSION_2_0 [] []
       (Some (PList [PInt 1; PInt 2])) (PList [PInt 1; PInt 2]) (PDict [])].
Proof.
  apply (batch_notify_forces_shorthand
           [DescStr "ping"; DescRequest Examples.request_A;
            DescSeq [PStr "sum"; PList [PInt 1; PInt 2]]]
           Examples.world_0 Examples.world_0
           (JsonRpcBatchRequest.mk
              [JsonRpcRequest.mk (PStr "ping") None VERSION_2_0 [] [] None (PList []) (PDict []);
               Examples.request_A;
               JsonRpcRequest.mk (PStr "sum") None VERSION_2_0 [] []
                 (Some (PList [PInt 1; PInt 2])) (PList [PInt 1; PInt 2]) (PDict [])])).
  reflexivity.
Defined.

(** * The further theorems on concrete inputs *)

#[local] Existing Instance ReferenceCalls.parser.

Lemma version_check_comes_first_witness :
  JsonRpcRequest.new (PStr "subtract") None "1.0" [] []
    (Some (PList [PInt 1])) (PList [PInt 2]) PNone
  = Raise (InvalidRequest "Only version 2.0 is supported.").
Proof. apply version_check_comes_first. reflexivity. Defined.

Lemma params_exclude_present_args_witness :
  JsonRpcRequest.new (PStr "subtract") (Some (IdInt 7)) VERSION_2_0 [] []
    (Some (PList [PInt 1])) (PList []) (PDict [])
  = Raise (InvalidParams "Need use params or args with kwargs.").
Proof.
  apply params_exclude_present_args; [reflexivity|]. left. discriminate.
Defined.

Lemma constructor_keeps_fields_witness :
  JsonRpcRequest.method_name Examples.request_A = PStr "A" ∧
  JsonRpcRequest.id Examples.request_A = Some (IdInt 1) ∧
  JsonRpcRequest.jsonrpc Examples.request_A = VERSION_2_0 ∧
  JsonRpcRequest.extra_args Examples.request_A = [] ∧
  JsonRpcRequest.context Examples.request_A = [] ∧
  validate_jsonrpc (JsonRpcRequest.jsonrpc Examples.request_A) = Ok tt.
Proof.
  apply (constructor_keeps_fields (PStr "A") (Some (IdInt 1)) VERSION_2_0 [] []
           None PNone PNone Examples.request_A).
  reflexivity.
Defined.

Lemma params_request_round_trip_witness :
  from_dict (JsonRpcRequest.to_dict MoreExamples.request_sum) [] [] PNone PNone
  = Some (Ok MoreExamples.request_sum).
Proof.
  apply (params_request_round_trip (PStr "sum") (Some (IdInt 3)) VERSION_2_0 [] []
           (PList [PInt 1; PInt 2]) MoreExamples.request_sum).
  reflexivity.
Defined.

Lemma from_dict_rejects_malformed_witness :
  from_dict (PDict [("method", PStr "sum")]) [] [] PNone PNone
  = Some (Raise (InvalidRequest must_contain_message)).
Proof.
  apply (from_dict_rejects_malformed (PDict [("method", PStr "sum")])).
  reflexivity.
Defined.

Lemma batch_request_round_trip_witness :
  from_list_of_requests
    (JsonRpcBatchRequest.to_list
       (JsonRpcBatchRequest.mk [Examples.request_A; Examples.request_B]))
    [] [] PNone PNone
  = Some (Ok (JsonRpcBatchRequest.mk [Examples.request_A; Examples.request_B])).
Proof.
  apply batch_request_round_trip. simpl. repeat constructor.
Defined.

Lemma from_list_first_failure_witness :
  from_list_of_requests
    (PList ([JsonRpcRequest.to_dict Examples.request_A] ++
            PInt 5 :: [JsonRpcRequest.to_dict Examples.request_B]))
    [] [] PNone PNone
  = Some (Raise (InvalidRequest "A request must be of the dict type.")).
Proof.
  apply (from_list_first_failure [JsonRpcRequest.to_dict Examples.request_A]
           [JsonRpcRequest.to_dict Examples.request_B] (PInt 5)
           [Examples.request_A]);
    reflexivity.
Defined.

Lemma answers_come_back_in_request_order_witness :
  _collect_batch_result
    (JsonRpcBatchRequest.mk [Examples.request_A; Examples.request_C])
    (JsonRpcBatchResponse.mk [response_with (Some (IdInt 2)) (PStr "c");
                              response_with (Some (IdInt 1)) (PStr "a")])
  = Ok [Value (PStr "a"); Value (PStr "c")].
Proof.
  apply (answers_come_back_in_request_order
           [Examples.request_A; Examples.request_C]
           [response_with (Some (IdInt 1)) (PStr "a");
            response_with (Some (IdInt 2)) (PStr "c")]).
  - repeat constructor; discriminate.
  - by apply (bool_decide_unpack (NoDup (_ : list (option JsonRpcIdType)))).
  - apply perm_swap.
Defined.

Lemma response_order_is_irrelevant_witness :
  _collect_batch_result
    (JsonRpcBatchRequest.mk [Examples.request_A; Examples.request_B; Examples.request_C])
    (JsonRpcBatchResponse.mk [response_with (Some (IdInt 2)) (PStr "c");
                              response_with (Some (IdInt 1)) (PStr "a")])
  = _collect_batch_result
      (JsonRpcBatchRequest.mk [Examples.request_A; Examples.request_B; Examples.request_C])
      (JsonRpcBatchResponse.mk [response_with (Some (IdInt 1)) (PStr "a");
                                response_with (Some (IdInt 2)) (PStr "c")]).
Proof.
  apply response_order_is_irrelevant.
  - apply perm_swap.
  - by apply (bool_decide_unpack (NoDup (_ : list (option JsonRpcIdType)))).
Defined.

Lemma unlinked_results_are_shared_witness :
  ∃ res : list pyobj,
    _collect_batch_result
      (JsonRpcBatchRequest.mk [Examples.request_A; Examples.request_B])
      (JsonRpcBatchResponse.mk [response_with None (PStr "first");
                                response_with None (PStr "second")]) = Ok res ∧
    res !! 1%nat = Some (UnlinkedResults [Value (PStr "first"); Value (PStr "second")]).
Proof.
  apply (unlinked_results_are_shared
           (JsonRpcBatchRequest.mk [Examples.request_A; Examples.request_B])
           (JsonRpcBatchResponse.mk [response_with None (PStr "first");
                                     response_with None (PStr "second")])
           1%nat Examples.request_B).
  - reflexivity.
  - repeat constructor.
  - by constructor.
Defined.

Lemma same_id_same_entry_witness :
  ∃ res : list pyobj,
    _collect_batch_result
      (JsonRpcBatchRequest.mk [Examples.request_A; MoreExamples.request_A'])
      (JsonRpcBatchResponse.mk [response_with (Some (IdInt 1)) (PStr "a")]) = Ok res ∧
    res !! 0%nat = res !! 1%nat.
Proof.
  apply (same_id_same_entry
           (JsonRpcBatchRequest.mk [Examples.request_A; MoreExamples.request_A'])
           (JsonRpcBatchResponse.mk [response_with (Some (IdInt 1)) (PStr "a")])
           0%nat 1%nat Examples.request_A MoreExamples.request_A');
    reflexivity.
Defined.

Lemma direct_batch_of_notifications_witness :
  direct_batch (JsonRpcBatchRequest.mk [Examples.request_B]) Examples.world_0
  = (Ok None,
     Reference.mkWorld 100 [Examples.answer_c_a]
       [JsonRpcBatchRequest.to_list (JsonRpcBatchRequest.mk [Examples.request_B])]).
Proof.
  apply (direct_batch_of_notifications
           (JsonRpcBatchRequest.mk [Examples.request_B]) Examples.world_0 _ PNone None);
    [discriminate | reflexivity | reflexivity].
Defined.

Lemma direct_batch_empty_response_witness :
  direct_batch (JsonRpcBatchRequest.mk [Examples.request_A]) MoreExamples.world_silent
  = (Raise (ParseError "Server returned an empty batch response."),
     Reference.mkWorld 100 []
       [JsonRpcBatchRequest.to_list (JsonRpcBatchRequest.mk [Examples.request_A])]).
Proof.
  apply (direct_batch_empty_response
           (JsonRpcBatchRequest.mk [Examples.request_A]) MoreExamples.world_silent
           _ PNone None);
    [discriminate | reflexivity | reflexivity | reflexivity].
Defined.

Lemma batch_of_notifications_fails_assertion_witness :
  batch (DescBatch (JsonRpcBatchRequest.mk [Examples.request_B])) true Examples.world_0
  = (Raise AssertionError,
     Reference.mkWorld 100 [Examples.answer_c_a]
       [JsonRpcBatchRequest.to_list (JsonRpcBatchRequest.mk [Examples.request_B])]).
Proof.
  apply (batch_of_notifications_fails_assertion
           (JsonRpcBatchRequest.mk [Examples.request_B]) true Examples.world_0 _
           PNone None);
    [discriminate | reflexivity | reflexivity].
Defined.

Lemma batch_modes_agree_on_ordered_answers_witness :
  batch (DescBatch (JsonRpcBatchRequest.mk [Examples.request_A; Examples.request_C]))
    true MoreExamples.world_in_order
  = batch (DescBatch (JsonRpcBatchRequest.mk [Examples.request_A; Examples.request_C]))
      false MoreExamples.world_in_order.
Proof.
  assert (direct_batch
            (JsonRpcBatchRequest.mk [Examples.request_A; Examples.request_C])
            MoreExamples.world_in_order
          = (Ok (Some (JsonRpcBatchResponse.mk
                         [response_with (Some (IdInt 1)) (PStr "a");
                          response_with (Some (IdInt 2)) (PStr "c")])),
             Reference.mkWorld 100 []
               [JsonRpcBatchRequest.to_list
                  (JsonRpcBatchRequest.mk [Examples.request_A; Examples.request_C])]))
    as Hdirect by reflexivity.
  destruct (batch_modes_agree_on_ordered_answers _ _ _ _ Hdirect) as [_ Hagree].
  apply Hagree.
  - repeat constructor; discriminate.
  - by apply (bool_decide_unpack (NoDup (_ : list (option JsonRpcIdType)))).
Defined.

Lemma batch_over_shorthand_expects_a_response_witness :
  JsonRpcBatchRequest.is_notification
    (JsonRpcBatchRequest.mk
       [JsonRpcRequest.mk (PStr "ping") (Some (IdInt 100)) VERSION_2_0 [] [] None
          (PList []) (PDict [])]) = false.
Proof.
  assert (make_batch_request (Descriptions [DescStr "ping"]) false Examples.world_0
          = (Ok (JsonRpcBatchRequest.mk
                   [JsonRpcRequest.mk (PStr "ping") (Some (IdInt 100)) VERSION_2_0
                      [] [] None (PList []) (PDict [])]),
             Reference.mkWorld 101 [Examples.answer_c_a] []))
    as Hmake by reflexivity.
  destruct (batch_over_shorthand_expects_a_response _ _ _ _ Hmake) as [_ Hshort].
  apply Hshort. by constructor.
Defined.

Lemma malformed_description_spoils_the_batch_witness :
  ∃ e w',
    make_batch_request (Descriptions [DescStr "ping"; DescSeq []]) false Examples.world_0
      = (Raise e, w') ∧
    batch (Descriptions [DescStr "ping"; DescSeq []]) true Examples.world_0
      = (Raise e, w').
Proof.
  apply (malformed_description_spoils_the_batch [DescStr "ping"; DescSeq []] true
           Examples.world_0).
  apply Exists_cons_tl, Exists_cons_hd. split; reflexivity.
Defined.

Lemma direct_call_response_iff_id_witness :
  is_Some (Some (JsonRpcResponse.mk (Some (IdInt 100)) (PInt 19) None))
  ↔ is_Some (JsonRpcRequest.id
               (JsonRpcRequest.mk (PStr "subtract") (Some (IdInt 100)) VERSION_2_0
                  [] [] None (PList []) (PDict []))).
Proof.
  apply (direct_call_response_iff_id
           (JsonRpcRequest.mk (PStr "subtract") (Some (IdInt 100)) VERSION_2_0
              [] [] None (PList []) (PDict []))
           ReferenceCalls.world_call
           (Reference.mkWorld 100 []
              [PDict [("method", PStr "subtract"); ("jsonrpc", PStr "2.0");
                      ("id", PInt 100)]])).
  reflexivity.
Defined.

Lemma call_returns_result_or_raises_error_witness :
  call "subtract" [PInt 42; PInt 23] [] ReferenceCalls.world_call
  = (Ok (Returned (PInt 19)),
     Reference.mkWorld 101 []
       [PDict [("method", PStr "subtract"); ("jsonrpc", PStr "2.0");
               ("id", PInt 100); ("params", PList [PInt 42; PInt 23])]]).
Proof.
  apply (call_returns_result_or_raises_error "subtract" [PInt 42; PInt 23] []
           ReferenceCalls.world_call
           (Reference.mkWorld 101 [ReferenceCalls.answer_19] [])
           _ (IdInt 100)
           (JsonRpcRequest.mk (PStr "subtract") (Some (IdInt 100)) VERSION_2_0 [] []
              (Some (PList [PInt 42; PInt 23])) (PList [PInt 42; PInt 23]) (PDict []))
           ReferenceCalls.answer_19 None
           (JsonRpcResponse.mk (Some (IdInt 100)) (PInt 19) None));
    reflexivity.
Defined.

Lemma notify_sends_without_id_witness :
  notify "log" [PStr "started"] [] ReferenceCalls.world_call
  = (Ok tt,
     Reference.mkWorld 100 [ReferenceCalls.answer_19]
       [PDict [("method", PStr "log"); ("jsonrpc", PStr "2.0");
               ("params", PList [PStr "started"])]]).
Proof.
  apply (notify_sends_without_id "log" [PStr "started"] []
           ReferenceCalls.world_call _
           (JsonRpcRequest.mk (PStr "log") None VERSION_2_0 [] []
              (Some (PList [PStr "started"])) (PList [PStr "started"]) (PDict []))
           PNone None);
    reflexivity.
Defined.
